(** * fhirclient.auth: authorization strategies and the OAuth2 flow

    A shallow embedding of [fhirclient/auth.py]: the base strategy
    [FHIRAuth], the OAuth2 strategy [FHIROAuth2Auth], and the properties of
    their state handling, callback validation and token exchange. *)

From Stdlib Require Import ZArith String Ascii List.
From stdpp Require Import base option list gmap strings pretty fin_maps.

Local Open Scope string_scope.

(** ** Python values

    The instance variables and the mappings handled by the module hold
    [None], strings, and whatever a decoded state or token document carries. *)

Inductive pyval :=
| PNone
| PBool (b : bool)
| PInt (z : Z)
| PStr (s : string)
| PBytes (s : string)
| PList (l : list string).

(** [x is None] *)
Definition is_None (v : pyval) : bool :=
  match v with PNone => true | _ => false end.

(** Truth value of an object, as tested by [if x], [x or y] and [assert x]. *)
Definition truthy (v : pyval) : bool :=
  match v with
  | PNone => false
  | PBool b => b
  | PInt z => negb (z =? 0)%Z
  | PStr s => negb (String.eqb s EmptyString)
  | PBytes s => negb (String.eqb s EmptyString)
  | PList l => match l with [] => false | _ => true end
  end.

(** [x or y] *)
Definition py_or (x y : pyval) : pyval := if truthy x then x else y.

Definition bool_to_Z (b : bool) : Z := if b then 1%Z else 0%Z.

(** [x == y]; booleans compare as the integers 0 and 1, everything else
    only within its own type. *)
Definition py_eqb (x y : pyval) : bool :=
  match x, y with
  | PNone, PNone => true
  | PBool a, PBool b => Bool.eqb a b
  | PBool a, PInt z | PInt z, PBool a => (bool_to_Z a =? z)%Z
  | PInt a, PInt b => (a =? b)%Z
  | PStr a, PStr b => String.eqb a b
  | PBytes a, PBytes b => String.eqb a b
  | PList a, PList b => bool_decide (a = b)
  | _, _ => false
  end.

(** [d.get(k)] on a dictionary with string keys: [None] when [k] is absent. *)
Definition py_get (d : gmap string pyval) (k : string) : pyval :=
  default PNone (d !! k).

(** [bool(d)] for a dictionary: true unless it is empty. *)
Definition dict_truthy {V} (d : gmap string V) : bool :=
  negb (size d =? 0)%nat.

(** [dict(pairs)]: later pairs overwrite earlier ones. *)
Definition dict {V} (pairs : list (string * V)) : gmap string V :=
  fold_left (fun d kv => <[kv.1 := kv.2]> d) pairs ∅.

(** [s.replace('+', ' ')] *)
Fixpoint replace_plus (s : string) : string :=
  match s with
  | EmptyString => EmptyString
  | String c r =>
      String (if Ascii.eqb c "+"%char then " "%char else c) (replace_plus r)
  end.

(** ** Exceptions

    The module raises plain [Exception]s told apart by their message; one
    constructor of [message] stands for each [raise] statement. *)

Inductive exn :=
| AssertionError
| AttributeError
| TypeError
| IndexError
| KeyError (k : string)
| LibraryError (what : string)
| Exception (msg : message)
with message :=
| CannotHandleCallback                       (* "{} cannot handle callback URL" *)
| CannotSignHeaders                          (* "Cannot sign headers since I have no access token" *)
| NoCallbackURL                              (* "No callback URL received" *)
| InvalidCallbackURL (cause : exn)           (* "Invalid callback URL: {}" *)
| OAuthError (err : string)                  (* the text of extract_oauth_error *)
| InvalidState (have want : pyval)           (* "Invalid state, will not use this code. Have: {}, want: {}" *)
| NoCode (keys : gset string)                (* "Did not receive a code, only have: {}" *)
| NoServer                                   (* "I need a server to request an access token" *)
| NoAccessToken                              (* "No access token received" *)
| NoRefreshToken.                            (* "Cannot produce reauthorize parameters without refresh token" *)

Inductive result (A : Type) :=
| Return (a : A)
| Raise (e : exn).
Arguments Return {A} a.
Arguments Raise {A} e.

#[global] Instance result_ret : MRet result := fun A a => Return a.
#[global] Instance result_bind : MBind result := fun A B f r =>
  match r with
  | Return a => f a
  | Raise e => Raise e
  end.

(** ** Stateful computations that may raise

    A method is a function from the state before the call to its outcome
    and the state after it.  An exception does not roll the state back:
    what was assigned before the [raise] stays assigned. *)

Definition M (St A : Type) : Type := St -> result A * St.

#[global] Instance M_ret St : MRet (M St) := fun A a st => (Return a, st).
#[global] Instance M_bind St : MBind (M St) := fun A B f m st =>
  match m st with
  | (Return a, st') => f a st'
  | (Raise e, st') => (Raise e, st')
  end.

Definition raise {St A} (e : exn) : M St A := fun st => (Raise e, st).
Definition get {St} : M St St := fun st => (Return st, st).
Definition modify {St} (f : St -> St) : M St unit := fun st => (Return tt, f st).
Definition lift {St A} (r : result A) : M St A := fun st => (r, st).

(** [assert c] *)
Definition assert {St} (c : bool) : M St unit :=
  if c then mret tt else raise AssertionError.

(** [try: body  except Exception as e: handler(e)] *)
Definition try_except {St A} (body : M St A) (handler : exn -> M St A) : M St A :=
  fun st =>
    match body st with
    | (Return a, st') => (Return a, st')
    | (Raise e, st') => handler e st'
    end.

(** Run a computation on a component of the state ([get_] reads it,
    [set_] writes it back). *)
Definition zoom {St Sub A} (get_ : St -> Sub) (set_ : Sub -> St -> St)
    (m : M Sub A) : M St A :=
  fun st => let '(r, sub') := m (get_ st) in (r, set_ sub' st).

(** [seq[i]] and [len(x)] *)
Definition index (parts : list pyval) (i : nat) : result pyval :=
  match parts !! i with
  | Some v => Return v
  | None => Raise IndexError
  end.

Definition py_len (v : pyval) : result nat :=
  match v with
  | PStr s | PBytes s => Return (String.length s)
  | PList l => Return (List.length l)
  | _ => Raise TypeError
  end.

(** [del d[k]] *)
Definition del_item {V} (k : string) (d : gmap string V) : result (gmap string V) :=
  match d !! k with
  | Some _ => Return (delete k d)
  | None => Raise (KeyError k)
  end.

(** ** The collaborators

    The server object is only used through two methods.  Calls to them are
    recorded in a trace; what [post_as_form] answers may depend on the calls
    made so far.  [uuid.uuid4] and the [urlparse] functions belong to the
    Python library; the development is parametric in them. *)

Inductive event :=
| SaveState                                             (* server.should_save_state() *)
| PostAsForm (uri : pyval) (params : gmap string pyval). (* server.post_as_form(uri, params) *)

Record FHIRServer := {
  post_as_form : list event -> pyval -> gmap string pyval -> result (gmap string pyval)
}.

Record Env := {
  trace : list event;   (* calls received by the server, oldest first *)
  drawn : nat           (* number of UUIDs generated so far *)
}.

Class PyLib := {
  uuid4 : nat -> string;                               (* str(uuid.uuid4()), by draw *)
  urlsplit : pyval -> result (list pyval);
  urlunsplit : list pyval -> result pyval;
  parse_qs : pyval -> result (gmap string pyval);
  parse_qsl : pyval -> result (list (string * string));
  urlencode : gmap string pyval -> result pyval          (* with doseq=True *)
}.

(** ** class FHIRAuth *)

Module FHIRAuth.

Record t := {
  server : option FHIRServer;
  app_id : pyval
}.

Definition set_server (v : option FHIRServer) (self : t) : t :=
  {| server := v; app_id := app_id self |}.
Definition set_app_id (v : pyval) (self : t) : t :=
  {| server := server self; app_id := v |}.

(** The body of [__init__], for the class whose [from_state] is given
    ([self.from_state] is resolved on the object's own class); [up] runs a
    computation on the [FHIRAuth] part of the object. *)
Definition __init__ {St} (up : M t unit -> M St unit)
    (from_state : gmap string pyval -> M St unit)
    (server : option FHIRServer) (state : option (gmap string pyval)) : M St unit :=
  assert (bool_decide (is_Some server));;
  up (modify (set_server server));;
  up (modify (set_app_id PNone));;
  match state with
  | Some st => from_state st
  | None => mret tt
  end.

Definition ready (self : t) : bool := true.

Definition reset : M t unit := mret tt.

Definition can_sign_headers (self : t) : bool := false.

Definition authorize_uri (self : t) : pyval := PNone.

Definition handle_callback (url : pyval) : M t (gmap string pyval) :=
  raise (Exception CannotHandleCallback).

Definition reauthorize : M t pyval := mret PNone.

Definition state (self : t) : gmap string pyval :=
  {[ "app_id" := app_id self ]}.

Definition from_state (state : gmap string pyval) : M t unit :=
  assert (dict_truthy state);;
  modify (fun self => set_app_id (py_or (py_get state "app_id") (app_id self)) self).

(** The instance variable kept under key [k] of the state mapping. *)
Definition field (k : string) (self : t) : option pyval :=
  if String.eqb k "app_id" then Some (app_id self) else None.

(** [FHIRAuth(server, state)] *)
Definition blank : t := {| server := None; app_id := PNone |}.

Definition new (server : option FHIRServer) (state : option (gmap string pyval)) : result t :=
  match __init__ id from_state server state blank with
  | (Return _, self) => Return self
  | (Raise e, _) => Raise e
  end.

End FHIRAuth.

(** ** class FHIROAuth2Auth(FHIRAuth) *)

Module FHIROAuth2Auth.

Record t := {
  super : FHIRAuth.t;
  scope : pyval;
  _registration_uri : pyval;
  _authorize_uri : pyval;
  _redirect_uri : pyval;
  _token_uri : pyval;
  auth_state : pyval;
  access_token : pyval;
  refresh_token : pyval
}.

Definition server (self : t) := FHIRAuth.server (super self).
Definition app_id (self : t) := FHIRAuth.app_id (super self).

Definition set_super v (self : t) : t :=
  {| super := v; scope := scope self;
     _registration_uri := _registration_uri self; _authorize_uri := _authorize_uri self;
     _redirect_uri := _redirect_uri self; _token_uri := _token_uri self;
     auth_state := auth_state self; access_token := access_token self;
     refresh_token := refresh_token self |}.
Definition set_scope v (self : t) : t :=
  {| super := super self; scope := v;
     _registration_uri := _registration_uri self; _authorize_uri := _authorize_uri self;
     _redirect_uri := _redirect_uri self; _token_uri := _token_uri self;
     auth_state := auth_state self; access_token := access_token self;
     refresh_token := refresh_token self |}.
Definition set_registration_uri v (self : t) : t :=
  {| super := super self; scope := scope self;
     _registration_uri := v; _authorize_uri := _authorize_uri self;
     _redirect_uri := _redirect_uri self; _token_uri := _token_uri self;
     auth_state := auth_state self; access_token := access_token self;
     refresh_token := refresh_token self |}.
Definition set_authorize_uri v (self : t) : t :=
  {| super := super self; scope := scope self;
     _registration_uri := _registration_uri self; _authorize_uri := v;
     _redirect_uri := _redirect_uri self; _token_uri := _token_uri self;
     auth_state := auth_state self; access_token := access_token self;
     refresh_token := refresh_token self |}.
Definition set_redirect_uri v (self : t) : t :=
  {| super := super self; scope := scope self;
     _registration_uri := _registration_uri self; _authorize_uri := _authorize_uri self;
     _redirect_uri := v; _token_uri := _token_uri self;
     auth_state := auth_state self; access_token := access_token self;
     refresh_token := refresh_token self |}.
Definition set_token_uri v (self : t) : t :=
  {| super := super self; scope := scope self;
     _registration_uri := _registration_uri self; _authorize_uri := _authorize_uri self;
     _redirect_uri := _redirect_uri self; _token_uri := v;
     auth_state := auth_state self; access_token := access_token self;
     refresh_token := refresh_token self |}.
Definition set_auth_state v (self : t) : t :=
  {| super := super self; scope := scope self;
     _registration_uri := _registration_uri self; _authorize_uri := _authorize_uri self;
     _redirect_uri := _redirect_uri self; _token_uri := _token_uri self;
     auth_state := v; access_token := access_token self;
     refresh_token := refresh_token self |}.
Definition set_access_token v (self : t) : t :=
  {| super := super self; scope := scope self;
     _registration_uri := _registration_uri self; _authorize_uri := _authorize_uri self;
     _redirect_uri := _redirect_uri self; _token_uri := _token_uri self;
     auth_state := auth_state self; access_token := v;
     refresh_token := refresh_token self |}.
Definition set_refresh_token v (self : t) : t :=
  {| super := super self; scope := scope self;
     _registration_uri := _registration_uri self; _authorize_uri := _authorize_uri self;
     _redirect_uri := _redirect_uri self; _token_uri := _token_uri self;
     auth_state := auth_state self; access_token := access_token self;
     refresh_token := v |}.

(** A method of the [FHIRAuth] part, called through [super(...)]. *)
Definition via_super {A} (m : M FHIRAuth.t A) : M t A := zoom super set_super m.

(** *** Methods that touch only the object *)

Definition ready (self : t) : bool :=
  if truthy (access_token self) then true else false.

Definition reset : M t unit :=
  via_super FHIRAuth.reset;;
  modify (set_access_token PNone);;
  modify (set_auth_state PNone).

Definition can_sign_headers (self : t) : bool :=
  if negb (is_None (access_token self)) then true else false.

(** The text of ["Bearer {}".format(token)] is left to [bearer]. *)
Definition signed_headers (bearer : pyval -> pyval)
    (headers : option (gmap string pyval)) : M t (gmap string pyval) :=
  self ← get;
  if negb (can_sign_headers self) then raise (Exception CannotSignHeaders) else
  let headers := match headers with None => ∅ | Some h => h end in
  mret (<["Authorization" := bearer (access_token self)]> headers).

Definition state (self : t) : gmap string pyval :=
  let s := FHIRAuth.state (super self) in
  let s := <["scope" := scope self]> s in
  let s := <["registration_uri" := _registration_uri self]> s in
  let s := <["authorize_uri" := _authorize_uri self]> s in
  let s := <["redirect_uri" := _redirect_uri self]> s in
  let s := <["token_uri" := _token_uri self]> s in
  let s := if negb (is_None (auth_state self))
           then <["auth_state" := auth_state self]> s else s in
  let s := if negb (is_None (access_token self))
           then <["access_token" := access_token self]> s else s in
  let s := if negb (is_None (refresh_token self))
           then <["refresh_token" := refresh_token self]> s else s in
  s.

Definition from_state (state : gmap string pyval) : M t unit :=
  via_super (FHIRAuth.from_state state);;
  modify (fun self => set_scope (py_or (py_get state "scope") (scope self)) self);;
  modify (fun self => set_registration_uri
            (py_or (py_get state "registration_uri") (_registration_uri self)) self);;
  modify (fun self => set_authorize_uri
            (py_or (py_get state "authorize_uri") (_authorize_uri self)) self);;
  modify (fun self => set_redirect_uri
            (py_or (py_get state "redirect_uri") (_redirect_uri self)) self);;
  modify (fun self => set_token_uri
            (py_or (py_get state "token_uri") (_token_uri self)) self);;
  modify (fun self => set_auth_state
            (py_or (py_get state "auth_state") (auth_state self)) self);;
  modify (fun self => set_access_token
            (py_or (py_get state "access_token") (access_token self)) self);;
  modify (fun self => set_refresh_token
            (py_or (py_get state "refresh_token") (refresh_token self)) self).

(** The instance variable kept under key [k] of the state mapping. *)
Definition field (k : string) (self : t) : option pyval :=
  if String.eqb k "scope" then Some (scope self)
  else if String.eqb k "registration_uri" then Some (_registration_uri self)
  else if String.eqb k "authorize_uri" then Some (_authorize_uri self)
  else if String.eqb k "redirect_uri" then Some (_redirect_uri self)
  else if String.eqb k "token_uri" then Some (_token_uri self)
  else if String.eqb k "auth_state" then Some (auth_state self)
  else if String.eqb k "access_token" then Some (access_token self)
  else if String.eqb k "refresh_token" then Some (refresh_token self)
  else FHIRAuth.field k (super self).

(** [FHIROAuth2Auth(server, state)]: the eight assignments of [__init__],
    then the superclass's [__init__]. *)
Definition blank : t :=
  {| super := FHIRAuth.blank; scope := PNone;
     _registration_uri := PNone; _authorize_uri := PNone;
     _redirect_uri := PNone; _token_uri := PNone;
     auth_state := PNone; access_token := PNone; refresh_token := PNone |}.

Definition __init__ (server : option FHIRServer)
    (state : option (gmap string pyval)) : M t unit :=
  modify (set_scope PNone);;
  modify (set_registration_uri PNone);;
  modify (set_authorize_uri PNone);;
  modify (set_redirect_uri PNone);;
  modify (set_token_uri PNone);;
  modify (set_auth_state PNone);;
  modify (set_access_token PNone);;
  modify (set_refresh_token PNone);;
  FHIRAuth.__init__ via_super from_state server state.

Definition new (server : option FHIRServer) (state : option (gmap string pyval)) : result t :=
  match __init__ server state blank with
  | (Return _, self) => Return self
  | (Raise e, _) => Raise e
  end.

(** [extract_oauth_error(args)] *)
Definition extract_oauth_error (args : gmap string string) : option string :=
  match args !! "error_description" with
  | Some d => Some (replace_plus d)
  | None =>
    match args !! "error" with
    | Some err_code =>
      if String.eqb "invalid_request" err_code then
        Some "The request is missing a required parameter, includes an invalid parameter value, includes a parameter more than once, or is otherwise malformed."
      else if String.eqb "unauthorized_client" err_code then
        Some "The client is not authorized to request an access token using this method."
      else if String.eqb "access_denied" err_code then
        Some "The resource owner or authorization server denied the request."
      else if String.eqb "unsupported_response_type" err_code then
        Some "The authorization server does not support obtaining an access token using this method."
      else if String.eqb "invalid_scope" err_code then
        Some "The requested scope is invalid, unknown, or malformed."
      else if String.eqb "server_error" err_code then
        Some "The authorization server encountered an unexpected condition that prevented it from fulfilling the request."
      else if String.eqb "temporarily_unavailable" err_code then
        Some "The authorization server is currently unable to handle the request due to a temporary overloading or maintenance of the server."
      else Some ("Authorization error: " +:+ err_code +:+ ".")
    | None => None
    end
  end.

(** *** The OAuth2 flow

    These methods also act on the environment: they call the server and
    draw UUIDs. *)

Record world := {
  self : t;
  env : Env
}.

Definition set_self (v : t) (w : world) : world := {| self := v; env := env w |}.
Definition set_env (v : Env) (w : world) : world := {| self := self w; env := v |}.

Definition on_self {A} (m : M t A) : M world A := zoom self set_self m.

Definition record (e : event) (w : world) : world :=
  set_env {| trace := trace (env w) ++ [e]; drawn := drawn (env w) |} w.

(** [self.server.should_save_state()] *)
Definition should_save_state : M world unit :=
  w ← get;
  match server (self w) with
  | None => raise AttributeError
  | Some _ => modify (record SaveState)
  end.

(** [self.server.post_as_form(uri, params)] *)
Definition call_post_as_form (uri : pyval) (params : gmap string pyval)
    : M world (gmap string pyval) :=
  w ← get;
  match server (self w) with
  | None => raise AttributeError
  | Some srv =>
      modify (record (PostAsForm uri params));;
      lift (post_as_form srv (trace (env w)) uri params)
  end.

Section Flow.
Context {pylib : PyLib}.

(** [str(uuid.uuid4())] *)
Definition draw_uuid4 : M world string :=
  fun w =>
    (Return (uuid4 (drawn (env w))),
     set_env {| trace := trace (env w); drawn := S (drawn (env w)) |} w).

Definition _authorize_params : M world (gmap string pyval) :=
  w ← get;
  (if is_None (auth_state (self w)) then
     u ← draw_uuid4;
     on_self (modify (set_auth_state (PStr (substring 0 8 u))));;
     should_save_state
   else mret tt);;
  w ← get;
  mret (<["client_id" := app_id (self w)]>
       (<["response_type" := PStr "code"]>
       (<["scope" := scope (self w)]>
       (<["state" := auth_state (self w)]>
       (<["redirect_uri" := _redirect_uri (self w)]> ∅))))).

(** Lines 148-151 of the [authorize_uri] property: the computed parameters
    are merged over those already present in the configured URL. *)
Definition merged_params (parts : list pyval) (auth_params : gmap string pyval)
    : result (gmap string pyval) :=
  q ← index parts 3;
  n ← py_len q;
  if (0 <? n)%nat
  then args ← parse_qs q; mret (auth_params ∪ args)
  else mret auth_params.

(** Lines 147-154: the URL is split, its query replaced, and put together
    again. *)
Definition rebuild_uri (base : pyval) (auth_params : gmap string pyval) : result pyval :=
  parts ← urlsplit base;
  auth_params ← merged_params parts auth_params;
  encoded ← urlencode auth_params;
  urlunsplit (<[3%nat := encoded]> parts).

Definition authorize_uri : M world pyval :=
  auth_params ← _authorize_params;
  w ← get;
  lift (rebuild_uri (_authorize_uri (self w)) auth_params).

Definition _code_exchange_params (code : string) : M world (gmap string pyval) :=
  w ← get;
  mret (<["client_id" := app_id (self w)]>
       (<["code" := PStr code]>
       (<["grant_type" := PStr "authorization_code"]>
       (<["redirect_uri" := _redirect_uri (self w)]>
       (<["state" := auth_state (self w)]> ∅))))).

Definition _request_access_token (params : gmap string pyval)
    : M world (gmap string pyval) :=
  w ← get;
  if bool_decide (server (self w) = None :> option FHIRServer) then raise (Exception NoServer) else
  ret_params ← call_post_as_form (_token_uri (self w)) params;
  on_self (modify (set_access_token (py_get ret_params "access_token")));;
  w ← get;
  if is_None (access_token (self w)) then raise (Exception NoAccessToken) else
  ret_params ← lift (del_item "access_token" ret_params);
  ret_params ← (if bool_decide ("expires_in" ∈ dom ret_params)
                then lift (del_item "expires_in" ret_params)
                else mret ret_params);
  on_self (modify (set_refresh_token (py_get ret_params "refresh_token")));;
  w ← get;
  ret_params ← (if negb (is_None (refresh_token (self w)))
                then lift (del_item "refresh_token" ret_params)
                else mret ret_params);
  mret ret_params.

(** The body of the [try] block of [handle_callback]. *)
Definition callback_args (url : pyval) : result (gmap string string) :=
  parts ← urlsplit url;
  q ← index parts 3;
  pairs ← parse_qsl q;
  mret (dict pairs).

Definition handle_callback (url : pyval) : M world (gmap string pyval) :=
  if is_None url then raise (Exception NoCallbackURL) else
  args ← try_except (lift (callback_args url))
                    (fun e => raise (Exception (InvalidCallbackURL e)));
  match extract_oauth_error args with
  | Some err => raise (Exception (OAuthError err))
  | None =>
      w ← get;
      let stt := from_option PStr PNone (args !! "state") in
      if is_None stt || negb (py_eqb (auth_state (self w)) stt)
      then raise (Exception (InvalidState stt (auth_state (self w)))) else
      match args !! "code" with
      | None => raise (Exception (NoCode (dom args)))
      | Some code =>
          exchange ← _code_exchange_params code;
          _request_access_token exchange
      end
  end.

Definition _reauthorize_params : M world (gmap string pyval) :=
  w ← get;
  if is_None (refresh_token (self w)) then raise (Exception NoRefreshToken) else
  mret (<["client_id" := app_id (self w)]>
       (<["grant_type" := PStr "refresh_token"]>
       (<["refresh_token" := refresh_token (self w)]> ∅))).

(** [reauthorize] returns [None] or the launch context. *)
Definition reauthorize : M world (option (gmap string pyval)) :=
  w ← get;
  if is_None (refresh_token (self w)) then mret None else
  reauth ← _reauthorize_params;
  ctx ← _request_access_token reauth;
  mret (Some ctx).

(** *** Lifecycle

    The calls an application can make on a strategy, and the worlds they
    lead to from a newly constructed object. *)

Inductive call :=
| Reset
| FromState (state : gmap string pyval)
| SignedHeaders (bearer : pyval -> pyval) (headers : option (gmap string pyval))
| AuthorizeUri
| HandleCallback (url : pyval)
| Reauthorize.

Definition after (c : call) (w : world) : world :=
  match c with
  | Reset => (on_self reset w).2
  | FromState st => (on_self (from_state st) w).2
  | SignedHeaders bearer headers => (on_self (signed_headers bearer headers) w).2
  | AuthorizeUri => (authorize_uri w).2
  | HandleCallback url => (handle_callback url w).2
  | Reauthorize => (reauthorize w).2
  end.

Inductive reachable : world -> Prop :=
| reachable_new srv st o e :
    new srv st = Return o -> reachable {| self := o; env := e |}
| reachable_call c w :
    reachable w -> reachable (after c w).

End Flow.

End FHIROAuth2Auth.

(** ** A stand-in for the Python library and for a server

    Enough of [urlparse] to run the flow on plain ASCII URLs without
    escapes; scheme and authority stay in the path component.  As in
    Python 3, a [None] URL splits into empty byte strings, which
    [urlunsplit] then refuses to mix with a text query.  The theorems below
    hold for every [PyLib]; this one serves to run the model. *)

Module Sample.

(** [s.partition(c)]: the text before the first [c] and, if there is one,
    the text after it. *)
Fixpoint cut (c : ascii) (s : string) : string * option string :=
  match s with
  | EmptyString => (EmptyString, None)
  | String a r =>
      if Ascii.eqb a c then (EmptyString, Some r)
      else let '(h, t) := cut c r in (String a h, t)
  end.

(** [s.split(c)] *)
Fixpoint split_on (c : ascii) (s : string) : list string :=
  match s with
  | EmptyString => [EmptyString]
  | String a r =>
      if Ascii.eqb a c then EmptyString :: split_on c r
      else match split_on c r with
           | h :: t => String a h :: t
           | [] => [String a EmptyString]
           end
  end.

Definition urlsplit (url : pyval) : result (list pyval) :=
  match url with
  | PStr s =>
      let '(s, fragment) := cut "#" s in
      let '(path, query) := cut "?" s in
      Return [PStr EmptyString; PStr EmptyString; PStr path; PStr (default EmptyString query); PStr (default EmptyString fragment)]
  | PNone => Return [PBytes EmptyString; PBytes EmptyString; PBytes EmptyString; PBytes EmptyString; PBytes EmptyString]
  | _ => Raise AttributeError
  end.

Definition is_text (v : pyval) : bool :=
  match v with PStr _ => true | _ => false end.

Definition text_of (v : pyval) : string :=
  match v with PStr s | PBytes s => s | _ => EmptyString end.

Definition urlunsplit (parts : list pyval) : result pyval :=
  match parts with
  | [scheme; netloc; path; query; fragment] =>
      let str_input := is_text scheme in
      if existsb (fun v => negb (Bool.eqb (is_text v) str_input) && truthy v)
                 [netloc; path; query; fragment]
      then Raise TypeError
      else
        let url := text_of scheme +:+ text_of netloc +:+ text_of path
                   +:+ (if truthy query then "?" +:+ text_of query else EmptyString)
                   +:+ (if truthy fragment then "#" +:+ text_of fragment else EmptyString) in
        Return (if str_input then PStr url else PBytes url)
  | _ => Raise TypeError
  end.

(** Fields with an empty value are dropped ([keep_blank_values] is off). *)
Definition pairs_of (q : string) : list (string * string) :=
  omap (fun field =>
          let '(k, v) := cut "=" field in
          match v with
          | Some v => if String.eqb v EmptyString then None else Some (k, v)
          | None => None
          end)
       (split_on "&" q).

Definition parse_qsl (q : pyval) : result (list (string * string)) :=
  match q with
  | PStr s => Return (pairs_of s)
  | _ => Raise AttributeError
  end.

Definition values_of (v : pyval) : list string :=
  match v with PList l => l | _ => [] end.

Definition parse_qs (q : pyval) : result (gmap string pyval) :=
  pairs ← parse_qsl q;
  mret (fold_left (fun d kv => <[kv.1 := PList (values_of (py_get d kv.1) ++ [kv.2])]> d)
                  pairs ∅).

Definition encode_field (kv : string * pyval) : list string :=
  match kv.2 with
  | PStr s | PBytes s => [kv.1 +:+ "=" +:+ s]
  | PList l => (fun s => kv.1 +:+ "=" +:+ s) <$> l
  | PNone => [kv.1 +:+ "=None"]
  | PBool b => [kv.1 +:+ "=" +:+ (if b then "True" else "False")]
  | PInt z => [kv.1 +:+ "=" +:+ pretty z]
  end.

Definition join (sep : string) (l : list string) : string :=
  match l with
  | [] => EmptyString
  | h :: t => fold_left (fun acc s => acc +:+ sep +:+ s) t h
  end.

Definition urlencode (params : gmap string pyval) : result pyval :=
  Return (PStr (join "&" (map_to_list params ≫= encode_field))).

Definition uuid4 (n : nat) : string :=
  nth n ["0f8fad5b-d9cb-469f-a165-70867728950e";
         "7c9e6679-7425-40de-944b-e07fc1f90ae7"]
        "e02fd0e4-00fd-090a-ca30-0d00a0038ba0".

Definition pylib : PyLib :=
  Build_PyLib uuid4 urlsplit urlunsplit parse_qs parse_qsl urlencode.

(** A server that answers every token request with the same document. *)
Definition answering (doc : gmap string pyval) : FHIRServer :=
  {| post_as_form := fun _ _ _ => Return doc |}.

Definition quiet : Env := {| trace := []; drawn := 0 |}.

(** The token document of the specification's scenario, a persisted
    configuration, and the worlds of one run of the flow. *)
Definition token_doc : gmap string string :=
  <["access_token" := "t1"]> (<["refresh_token" := "r1"]> (<["expires_in" := "3600"]> ∅)).

Definition configuration : gmap string pyval :=
  <["app_id" := PStr "my_app"]>
  (<["scope" := PStr "launch"]>
  (<["authorize_uri" := PStr "https://ehr.example/auth?aud=x"]>
  (<["token_uri" := PStr "https://ehr.example/token"]> ∅))).

Definition world_of (r : result FHIROAuth2Auth.t) : FHIROAuth2Auth.world :=
  {| FHIROAuth2Auth.self := match r with
                            | Return o => o
                            | Raise _ => FHIROAuth2Auth.blank
                            end;
     FHIROAuth2Auth.env := quiet |}.

Definition fresh_with (doc : gmap string pyval) : FHIROAuth2Auth.world :=
  world_of (FHIROAuth2Auth.new (Some (answering doc)) (Some configuration)).

Definition pending_with (doc : gmap string pyval) : FHIROAuth2Auth.world :=
  (@FHIROAuth2Auth.authorize_uri pylib (fresh_with doc)).2.

Definition fresh : FHIROAuth2Auth.world := fresh_with (PStr <$> token_doc).

Definition pending : FHIROAuth2Auth.world := pending_with (PStr <$> token_doc).

(** A strategy restored from a snapshot that holds both tokens. *)
Definition snapshot : gmap string pyval :=
  <["access_token" := PStr "old"]> (<["refresh_token" := PStr "r0"]> configuration).

Definition restored_with (doc : gmap string pyval) : FHIROAuth2Auth.world :=
  world_of (FHIROAuth2Auth.new (Some (answering doc)) (Some snapshot)).

Definition authorized : FHIROAuth2Auth.world :=
  (@FHIROAuth2Auth.handle_callback pylib
     (PStr "https://app.example/cb?code=abc&state=0f8fad5b") pending).2.

(** A strategy constructed without any state to restore. *)
Definition unconfigured : FHIROAuth2Auth.world :=
  world_of (FHIROAuth2Auth.new (Some (answering (PStr <$> token_doc))) None).

(** A strategy of the base class. *)
Definition plain : FHIRAuth.t :=
  match FHIRAuth.new (Some (answering ∅)) None with
  | Return a => a
  | Raise _ => FHIRAuth.blank
  end.

(** Answers of a token endpoint used in the examples. *)
Definition refusal : gmap string pyval := {[ "error" := PStr "invalid_grant" ]}.
Definition token_only : gmap string pyval := {[ "access_token" := PStr "t2" ]}.
Definition empty_token : gmap string pyval := {[ "access_token" := PStr EmptyString ]}.
Definition refresh_params : gmap string pyval :=
  <["client_id" := PStr "my_app"]>
  (<["grant_type" := PStr "refresh_token"]>
  (<["refresh_token" := PStr "r0"]> ∅)).

End Sample.


(** ** Notions used in the statements *)

Import FHIROAuth2Auth.

(** The launch context: the answer of the server without the keys the
    strategy consumes. *)
Definition launch_context (resp : gmap string pyval) : gmap string pyval :=
  let d := delete "expires_in" (delete "access_token" resp) in
  if is_None (py_get resp "refresh_token") then d else delete "refresh_token" d.

(** The world after an exchange answered by [resp]. *)
Definition exchanged (params resp : gmap string pyval) (w : world) : world :=
  let w := record (PostAsForm (_token_uri (self w)) params) w in
  let w := set_self (set_access_token (py_get resp "access_token") (self w)) w in
  if is_None (py_get resp "access_token") then w
  else set_self (set_refresh_token (py_get resp "refresh_token") (self w)) w.

(** The object on which the superclass's [__init__] calls [from_state]. *)
Definition attached (srv : FHIRServer) : t :=
  set_super {| FHIRAuth.server := Some srv; FHIRAuth.app_id := PNone |} blank.

(** The object after a successful import. *)
Definition imported (st : gmap string pyval) (o : t) : t :=
  {| super := FHIRAuth.set_app_id (py_or (py_get st "app_id") (app_id o)) (super o);
     scope := py_or (py_get st "scope") (scope o);
     _registration_uri := py_or (py_get st "registration_uri") (_registration_uri o);
     _authorize_uri := py_or (py_get st "authorize_uri") (_authorize_uri o);
     _redirect_uri := py_or (py_get st "redirect_uri") (_redirect_uri o);
     _token_uri := py_or (py_get st "token_uri") (_token_uri o);
     auth_state := py_or (py_get st "auth_state") (auth_state o);
     access_token := py_or (py_get st "access_token") (access_token o);
     refresh_token := py_or (py_get st "refresh_token") (refresh_token o) |}.

(** The part of the exported state that does not depend on the nonce and
    on the access token. *)
Definition settings (o : t) : gmap string pyval :=
  let s := <["token_uri" := _token_uri o]>
           (<["redirect_uri" := _redirect_uri o]>
           (<["authorize_uri" := _authorize_uri o]>
           (<["registration_uri" := _registration_uri o]>
           (<["scope" := scope o]> (FHIRAuth.state (super o)))))) in
  if negb (is_None (refresh_token o)) then <["refresh_token" := refresh_token o]> s else s.

(** The parameters computed by [_authorize_params]. *)
Definition auth_params_of (o : t) : gmap string pyval :=
  <["client_id" := app_id o]>
  (<["response_type" := PStr "code"]>
  (<["scope" := scope o]>
  (<["state" := auth_state o]>
  (<["redirect_uri" := _redirect_uri o]> ∅)))).

Section Minting.
Context {pylib : PyLib}.

(** The world once a nonce has been minted and the server told to save
    the state. *)
Definition minted (w : world) : world :=
  {| self := set_auth_state (PStr (substring 0 8 (uuid4 (drawn (env w))))) (self w);
     env := {| trace := trace (env w) ++ [SaveState]; drawn := S (drawn (env w)) |} |}.

Definition pended (w : world) : world :=
  if is_None (auth_state (self w)) then minted w else w.

End Minting.

Definition settled (v : pyval) : Prop := v = PNone \/ truthy v = true.

Definition config (o : t) : pyval * pyval * pyval * pyval * pyval :=
  (scope o, _registration_uri o, _authorize_uri o, _redirect_uri o, _token_uri o).

Definition well_configured (o : t) : Prop :=
  settled (scope o) /\ settled (_registration_uri o) /\ settled (_authorize_uri o) /\
  settled (_redirect_uri o) /\ settled (_token_uri o).

(** A computation that leaves scope and endpoints alone. *)
Definition keeps_config {A} (m : M world A) : Prop :=
  forall w, config (self (m w).2) = config (self w).

(** The parameters computed by [_code_exchange_params] and by
    [_reauthorize_params]. *)
Definition exchange_params_of (code : string) (o : t) : gmap string pyval :=
  <["client_id" := app_id o]>
  (<["code" := PStr code]>
  (<["grant_type" := PStr "authorization_code"]>
  (<["redirect_uri" := _redirect_uri o]>
  (<["state" := auth_state o]> ∅)))).

Definition reauth_params_of (o : t) : gmap string pyval :=
  <["client_id" := app_id o]>
  (<["grant_type" := PStr "refresh_token"]>
  (<["refresh_token" := refresh_token o]> ∅)).

(** A computation that leaves the observation [f] of the world alone. *)
Definition preserves {A B} (f : world -> B) (m : M world A) : Prop :=
  forall w, f (m w).2 = f w.

(** What a token exchange cannot change: the base part of the object,
    scope and endpoints, the nonce, and the number of UUIDs drawn. *)
Definition beside_tokens (w : world) :=
  (super (self w), config (self w), auth_state (self w), drawn (env w)).

(** What reading [authorize_uri] cannot change. *)
Definition beside_nonce (w : world) :=
  (super (self w), config (self w), access_token (self w), refresh_token (self w)).

(** The error codes that have a text of their own, each with its text
    (the sentences of RFC 6749, section 4.1.2.1). *)
Definition error_texts : list (string * string) :=
  [("invalid_request",
    "The request is missing a required parameter, includes an invalid parameter value, includes a parameter more than once, or is otherwise malformed.");
   ("unauthorized_client",
    "The client is not authorized to request an access token using this method.");
   ("access_denied",
    "The resource owner or authorization server denied the request.");
   ("unsupported_response_type",
    "The authorization server does not support obtaining an access token using this method.");
   ("invalid_scope",
    "The requested scope is invalid, unknown, or malformed.");
   ("server_error",
    "The authorization server encountered an unexpected condition that prevented it from fulfilling the request.");
   ("temporarily_unavailable",
    "The authorization server is currently unable to handle the request due to a temporary overloading or maintenance of the server.")].

(** The text of a known code. *)
Definition error_text (code : string) : option string :=
  (list_to_map error_texts : gmap string string) !! code.

(** The keys of the exported state that hold the nonce and the tokens. *)
Definition token_keys : list string := ["auth_state"; "access_token"; "refresh_token"].

(** ** The registry of authorization classes

    [FHIRAuth.auth_classes] maps an [auth_type] to the class registered for
    it.  A class is known by its name and carries its [auth_type]
    attribute; an empty [auth_type] stands for a class that does not
    specify one. *)

Module Registry.

Record klass := {
  class_name : string;
  auth_type : string
}.

#[global] Instance klass_eq_dec : EqDecision klass.
Proof. solve_decision. Defined.

Definition FHIRAuth_class : klass :=
  {| class_name := "FHIRAuth"; auth_type := "none" |}.
Definition FHIROAuth2Auth_class : klass :=
  {| class_name := "FHIROAuth2Auth"; auth_type := "oauth2" |}.

(** The exceptions of [register] and [create], by [raise] statement. *)
Inductive registry_error :=
| NoAuthType (cls : klass)                      (* "Class {} does not specify the auth_type it supports" *)
| AlreadyRegistered (existing : klass) (tag : string)
                                                (* "Class {} is already registered for authorization type ..." *)
| NoClassRegistered (tag : pyval).              (* "No class registered for authorization type ..." *)

(** [cls.register()]: the exception raised, if any, and the registry
    afterwards. *)
Definition register (cls : klass) (auth_classes : gmap string klass)
    : option registry_error * gmap string klass :=
  if negb (truthy (PStr (auth_type cls))) then (Some (NoAuthType cls), auth_classes)
  else match auth_classes !! auth_type cls with
       | None => (None, <[auth_type cls := cls]> auth_classes)
       | Some existing =>
           if bool_decide (existing <> cls)
           then (Some (AlreadyRegistered existing (auth_type cls)), auth_classes)
           else (None, auth_classes)
       end.

(** An instance of one of the two classes of the module. *)
Inductive strategy :=
| NoAuth (a : FHIRAuth.t)
| OAuth2 (o : FHIROAuth2Auth.t).

Inductive outcome :=
| Created (s : strategy)
| Refused (e : registry_error)          (* raised by [create] itself *)
| Raised (e : exn).                     (* raised by the constructor or the lookup *)

(** [klass(server, state=state)] for the classes of the module; [other]
    stands for the constructors of classes defined elsewhere. *)
Definition construct (other : klass -> option FHIRServer -> option (gmap string pyval) -> outcome)
    (cls : klass) (server : option FHIRServer) (state : option (gmap string pyval)) : outcome :=
  if bool_decide (cls = FHIRAuth_class) then
    match FHIRAuth.new server state with
    | Return a => Created (NoAuth a)
    | Raise e => Raised e
    end
  else if bool_decide (cls = FHIROAuth2Auth_class) then
    match FHIROAuth2Auth.new server state with
    | Return o => Created (OAuth2 o)
    | Raise e => Raised e
    end
  else other cls server state.

(** [auth_type in auth_classes] and [auth_classes[auth_type]]: the keys are
    strings, a list cannot be hashed. *)
Definition find (auth_classes : gmap string klass) (tag : pyval) : result (option klass) :=
  match tag with
  | PStr s => Return (auth_classes !! s)
  | PList _ => Raise TypeError
  | _ => Return None
  end.

(** [FHIRAuth.create(auth_type, server, state)] *)
Definition create (other : klass -> option FHIRServer -> option (gmap string pyval) -> outcome)
    (auth_classes : gmap string klass)
    (auth_type : pyval) (server : option FHIRServer) (state : option (gmap string pyval))
    : outcome :=
  let auth_type := if negb (truthy auth_type) then PStr "none" else auth_type in
  match find auth_classes auth_type with
  | Raise e => Raised e
  | Return (Some cls) => construct other cls server state
  | Return None => Refused (NoClassRegistered auth_type)
  end.

(** The registry once the module has been imported: the two calls at its
    end ([FHIRAuth.register()], then [FHIROAuth2Auth.register()]). *)
Definition at_import : gmap string klass :=
  (register FHIROAuth2Auth_class (register FHIRAuth_class ∅).2).2.

(** [ready] and [can_sign_headers()] on an instance, by its class. *)
Definition ready (s : strategy) : bool :=
  match s with
  | NoAuth a => FHIRAuth.ready a
  | OAuth2 o => FHIROAuth2Auth.ready o
  end.

Definition can_sign_headers (s : strategy) : bool :=
  match s with
  | NoAuth a => FHIRAuth.can_sign_headers a
  | OAuth2 o => FHIROAuth2Auth.can_sign_headers o
  end.

End Registry.

(** * Properties *)

(** Unfolds the plumbing of a method body. *)
Ltac run :=
  unfold mbind, mret, M_bind, M_ret, result_bind, result_ret, get, modify,
    raise, lift, assert, try_except, on_self, via_super, zoom in *;
  simpl in *.

(** Evaluates lookups in maps built by insertions under literal keys. *)
Ltac lookups :=
  repeat first
    [ rewrite lookup_insert_eq
    | rewrite lookup_insert_ne by congruence
    | rewrite lookup_singleton_eq
    | rewrite lookup_singleton_ne by congruence
    | rewrite lookup_empty ];
  try done.

(** ** Python values *)

Lemma py_eqb_str (v : pyval) (s : string) : py_eqb v (PStr s) = true <-> v = PStr s.
Proof.
  destruct v; simpl; try (split; [discriminate | congruence]).
  rewrite String.eqb_eq. split; congruence.
Qed.

Lemma is_None_false (v : pyval) : v <> PNone -> is_None v = false.
Proof. by destruct v. Qed.

Lemma py_or_falsy (x y : pyval) : truthy x = false -> py_or x y = y.
Proof. unfold py_or. intros ->. reflexivity. Qed.

Lemma py_or_truthy (x y : pyval) : truthy x = true -> py_or x y = x.
Proof. unfold py_or. intros ->. reflexivity. Qed.

Lemma dict_truthy_lookup {V} (d : gmap string V) (k : string) (v : V) :
  d !! k = Some v -> dict_truthy d = true.
Proof.
  intros Hk. unfold dict_truthy.
  destruct (size d) eqn:Hsz; [|reflexivity].
  apply map_size_empty_inv in Hsz. subst d. rewrite lookup_empty in Hk. discriminate.
Qed.

Lemma dict_truthy_empty {V} (d : gmap string V) : dict_truthy d = false <-> d = ∅.
Proof.
  unfold dict_truthy. split.
  - destruct (size d) eqn:Hsz; [|discriminate].
    intros _. by apply map_size_empty_inv.
  - intros ->. by rewrite map_size_empty.
Qed.

(** ** The callback check *)

Lemma extract_oauth_error_None (args : gmap string string) :
  extract_oauth_error args = None <->
  args !! "error_description" = None /\ args !! "error" = None.
Proof.
  unfold extract_oauth_error.
  destruct (args !! "error_description"); [split; [discriminate | intros [? _]; discriminate]|].
  destruct (args !! "error"); [|tauto].
  split; [|intros [_ ?]; discriminate].
  repeat (case_match; try discriminate).
Qed.

Section Callback.
Context {pylib : PyLib}.

(** C1. A callback URL without an OAuth2 error indication whose [state]
    parameter is missing, or is not the pending [auth_state], makes
    [handle_callback] raise the invalid-state exception and leaves the whole
    world as it was: [access_token] keeps its value and the trace gains no
    [post_as_form] call. *)
Theorem handle_callback_state_mismatch
    (url : pyval) (args : gmap string string) (w : world) :
  url <> PNone ->
  callback_args url = Return args ->
  extract_oauth_error args = None ->
  (args !! "state" = None \/
   exists stt, args !! "state" = Some stt /\ auth_state (self w) <> PStr stt) ->
  handle_callback url w =
    (Raise (Exception (InvalidState (from_option PStr PNone (args !! "state"))
                                    (auth_state (self w)))), w).
Proof.
  intros Hurl Hargs Herr Hstate. unfold handle_callback.
  destruct url; try congruence; run; rewrite Hargs, Herr.
  all: destruct Hstate as [-> | (stt & -> & Hne)]; simpl; try reflexivity.
  all: destruct (py_eqb (auth_state (self w)) (PStr stt)) eqn:E; simpl; try reflexivity.
  all: apply py_eqb_str in E; contradiction.
Qed.

End Callback.

Lemma handle_callback_state_mismatch_witness :
  @handle_callback Sample.pylib (PStr "https://app.example/cb?code=abc&state=zzz")
    Sample.pending =
  (Raise (Exception (InvalidState (PStr "zzz") (PStr "0f8fad5b"))), Sample.pending).
Proof.
  apply (@handle_callback_state_mismatch Sample.pylib _
           (dict [("code", "abc"); ("state", "zzz")])).
  - discriminate.
  - vm_compute. reflexivity.
  - vm_compute. reflexivity.
  - right. exists "zzz". split; [reflexivity | vm_compute; discriminate].
Defined.

(** ** The token exchange *)

Lemma py_get_delete_ne (d : gmap string pyval) (k k' : string) :
  k <> k' -> py_get (delete k d) k' = py_get d k'.
Proof. intros Hne. unfold py_get. by rewrite lookup_delete_ne. Qed.

Lemma del_item_present {V} (d : gmap string V) (k : string) :
  is_Some (d !! k) -> del_item k d = Return (delete k d).
Proof. intros [v Hv]. unfold del_item. by rewrite Hv. Qed.

Lemma request_access_token_run (params resp : gmap string pyval) (w : world)
    (srv : FHIRServer) :
  server (self w) = Some srv ->
  post_as_form srv (trace (env w)) (_token_uri (self w)) params = Return resp ->
  _request_access_token params w =
    ((if is_None (py_get resp "access_token")
      then Raise (Exception NoAccessToken)
      else Return (launch_context resp)),
     exchanged params resp w).
Proof.
  intros Hsrv Hpost. unfold _request_access_token, call_post_as_form, exchanged,
    launch_context.
  run. rewrite Hsrv. simpl. rewrite Hsrv. simpl. rewrite Hpost. simpl.
  destruct (is_None (py_get resp "access_token")) eqn:Htok; [reflexivity|].
  assert (is_Some (resp !! "access_token")) as Hin.
  { unfold py_get in Htok. destruct (resp !! "access_token"); [eauto | discriminate]. }
  rewrite (del_item_present _ _ Hin).
  set (d1 := delete "access_token" resp).
  assert (py_get (delete "expires_in" d1) "refresh_token" = py_get resp "refresh_token")
    as Hrt by (subst d1; by rewrite !py_get_delete_ne).
  case_bool_decide as Hexp.
  - rewrite del_item_present by (by apply elem_of_dom).
    rewrite Hrt.
    destruct (is_None (py_get resp "refresh_token")) eqn:Hr; simpl; [reflexivity|].
    rewrite del_item_present; [reflexivity|].
    unfold py_get in Hr. rewrite lookup_delete_ne by done. subst d1.
    rewrite lookup_delete_ne by done.
    destruct (resp !! "refresh_token"); [eauto | discriminate].
  - assert (delete "expires_in" d1 = d1) as Hid.
    { apply delete_id. by apply not_elem_of_dom. }
    rewrite Hid in *. rewrite Hrt.
    destruct (is_None (py_get resp "refresh_token")) eqn:Hr; simpl; [reflexivity|].
    rewrite del_item_present; [reflexivity|].
    unfold py_get in Hr. subst d1. rewrite lookup_delete_ne by done.
    destruct (resp !! "refresh_token"); [eauto | discriminate].
Qed.


Lemma py_get_fmap (doc : gmap string string) (k : string) :
  py_get (PStr <$> doc) k = from_option PStr PNone (doc !! k).
Proof. unfold py_get. rewrite lookup_fmap. by destruct (doc !! k). Qed.

Lemma launch_context_fmap (doc : gmap string string) :
  launch_context (PStr <$> doc) =
  PStr <$> delete "refresh_token" (delete "expires_in" (delete "access_token" doc)).
Proof.
  unfold launch_context. rewrite py_get_fmap, !fmap_delete.
  destruct (doc !! "refresh_token") eqn:Hr; simpl; [reflexivity|].
  symmetry. apply delete_id.
  by rewrite !lookup_delete_ne, lookup_fmap, Hr.
Qed.

(** C2 (as amended). When the answer of the server has no [access_token]
    key, the exchange raises the no-access-token exception and
    [refresh_token] keeps its value, but [access_token] has already been
    overwritten with [None]; apart from that only the trace has changed. *)
Theorem request_access_token_no_token
    (params resp : gmap string pyval) (w : world) (srv : FHIRServer) :
  server (self w) = Some srv ->
  post_as_form srv (trace (env w)) (_token_uri (self w)) params = Return resp ->
  resp !! "access_token" = None ->
  let w' := record (PostAsForm (_token_uri (self w)) params)
                   (set_self (set_access_token PNone (self w)) w) in
  _request_access_token params w = (Raise (Exception NoAccessToken), w') /\
  refresh_token (self w') = refresh_token (self w) /\
  access_token (self w') = PNone.
Proof.
  intros Hsrv Hpost Hnone. simpl.
  rewrite (request_access_token_run _ _ _ _ Hsrv Hpost).
  unfold exchanged, py_get. rewrite Hnone. simpl. auto.
Qed.

(** C3 (as amended). When the answer of the server, a mapping from strings
    to strings, has an [access_token] key, the exchange returns normally,
    the strategy stores that value as its [access_token], so that
    [can_sign_headers()] holds, and so does [ready] when the value is not
    the empty string; the returned launch context is the answer without
    [access_token], [expires_in] and [refresh_token]; [refresh_token] is
    stored when the answer has one; and [auth_state] keeps its value. *)
Theorem request_access_token_stores_token
    (params : gmap string pyval) (doc : gmap string string) (tok : string)
    (w : world) (srv : FHIRServer) :
  server (self w) = Some srv ->
  post_as_form srv (trace (env w)) (_token_uri (self w)) params = Return (PStr <$> doc) ->
  doc !! "access_token" = Some tok ->
  exists w',
    _request_access_token params w =
      (Return (PStr <$> delete "refresh_token"
                 (delete "expires_in" (delete "access_token" doc))), w') /\
    access_token (self w') = PStr tok /\
    can_sign_headers (self w') = true /\
    (tok = EmptyString \/ ready (self w') = true) /\
    refresh_token (self w') = from_option PStr PNone (doc !! "refresh_token") /\
    auth_state (self w') = auth_state (self w).
Proof.
  intros Hsrv Hpost Htok. eexists.
  rewrite (request_access_token_run _ _ _ _ Hsrv Hpost).
  unfold exchanged. rewrite !py_get_fmap, Htok, launch_context_fmap. simpl.
  split; [reflexivity|]. unfold ready, can_sign_headers. simpl.
  repeat split.
  destruct (String.eqb_spec tok EmptyString); [by left | by right].
Qed.

(** C4 (as amended). After an exchange that returns normally on an answer
    without a [refresh_token] key, the strategy's [refresh_token] is
    [None], whatever it was before. *)
Theorem request_access_token_drops_refresh_token
    (params resp : gmap string pyval) (w : world) (srv : FHIRServer) :
  server (self w) = Some srv ->
  post_as_form srv (trace (env w)) (_token_uri (self w)) params = Return resp ->
  py_get resp "access_token" <> PNone ->
  resp !! "refresh_token" = None ->
  exists ctx w',
    _request_access_token params w = (Return ctx, w') /\
    access_token (self w') = py_get resp "access_token" /\
    refresh_token (self w') = PNone.
Proof.
  intros Hsrv Hpost Htok Hnone.
  exists (launch_context resp), (exchanged params resp w).
  rewrite (request_access_token_run _ _ _ _ Hsrv Hpost). unfold exchanged.
  apply is_None_false in Htok. rewrite Htok. simpl.
  split; [reflexivity|]. split; [reflexivity|].
  unfold py_get. by rewrite Hnone.
Qed.


Lemma request_access_token_no_token_witness :
  let w := Sample.restored_with Sample.refusal in
  let w' := record (PostAsForm (_token_uri (self w)) Sample.refresh_params)
                   (set_self (set_access_token PNone (self w)) w) in
  _request_access_token Sample.refresh_params w =
    (Raise (Exception NoAccessToken), w') /\
  refresh_token (self w') = refresh_token (self w) /\
  access_token (self w') = PNone.
Proof.
  apply (request_access_token_no_token Sample.refresh_params
           Sample.refusal _ (Sample.answering Sample.refusal));
    vm_compute; reflexivity.
Defined.

(** C2, counterexample. A strategy restored with [access_token = "old"]
    refreshes against a server whose answer has no [access_token]: the
    exchange raises, and the token held before is gone. *)
Lemma failed_refresh_clears_access_token :
  let w := Sample.restored_with Sample.refusal in
  let out := reauthorize w in
  Sample.refusal !! "access_token" = None /\
  out.1 = Raise (Exception NoAccessToken) /\
  access_token (self w) = PStr "old" /\
  access_token (self out.2) = PNone /\
  access_token (self out.2) <> access_token (self w).
Proof. vm_compute. repeat split; discriminate. Qed.

Lemma request_access_token_stores_token_witness :
  exists w',
    _request_access_token Sample.refresh_params Sample.pending =
      (Return (PStr <$> delete "refresh_token"
                 (delete "expires_in" (delete "access_token" Sample.token_doc))), w') /\
    access_token (self w') = PStr "t1" /\
    can_sign_headers (self w') = true /\
    ("t1" = EmptyString \/ ready (self w') = true) /\
    refresh_token (self w') =
      from_option PStr PNone (Sample.token_doc !! "refresh_token") /\
    auth_state (self w') = auth_state (self Sample.pending).
Proof.
  apply (request_access_token_stores_token Sample.refresh_params
           Sample.token_doc "t1" Sample.pending
           (Sample.answering (PStr <$> Sample.token_doc)));
    vm_compute; reflexivity.
Defined.

(** The scenario of the specification: the answer with the three consumed
    keys gives the stored tokens ["t1"] and ["r1"] and an empty launch
    context, and the pending nonce stays. *)
Example handle_callback_scenario :
  let out := @handle_callback Sample.pylib
               (PStr "https://app.example/cb?code=abc&state=0f8fad5b") Sample.pending in
  out.1 = Return ∅ /\
  access_token (self out.2) = PStr "t1" /\
  refresh_token (self out.2) = PStr "r1" /\
  ready (self out.2) = true /\
  auth_state (self out.2) = PStr "0f8fad5b".
Proof. vm_compute. repeat split. Qed.

(** C3, counterexample. The answer whose [access_token] is the empty string has the key, the
    exchange returns normally and stores the value, yet [ready] is false. *)
Lemma request_access_token_empty_token_not_ready :
  let w := Sample.pending_with Sample.empty_token in
  let out := @handle_callback Sample.pylib
               (PStr "https://app.example/cb?code=abc&state=0f8fad5b") w in
  is_Some (Sample.empty_token !! "access_token") /\
  out.1 = Return ∅ /\
  access_token (self out.2) = PStr EmptyString /\
  ready (self out.2) <> true.
Proof. vm_compute. repeat split; [eauto | discriminate]. Qed.

Lemma request_access_token_drops_refresh_token_witness :
  exists ctx w',
    _request_access_token Sample.refresh_params
      (Sample.restored_with Sample.token_only) = (Return ctx, w') /\
    access_token (self w') = py_get Sample.token_only "access_token" /\
    refresh_token (self w') = PNone.
Proof.
  apply (request_access_token_drops_refresh_token Sample.refresh_params
           Sample.token_only _ (Sample.answering Sample.token_only));
    vm_compute; (reflexivity || discriminate).
Defined.

(** C4, counterexample. A strategy holding [refresh_token = "r0"] refreshes
    against a server whose answer carries a new access token and no
    [refresh_token]: the exchange returns normally and the refresh token is
    lost. *)
Lemma reauthorize_loses_refresh_token :
  let w := Sample.restored_with Sample.token_only in
  let out := reauthorize w in
  Sample.token_only !! "refresh_token" = None /\
  out.1 = Return (Some ∅) /\
  refresh_token (self w) = PStr "r0" /\
  refresh_token (self out.2) = PNone /\
  refresh_token (self out.2) <> refresh_token (self w).
Proof. vm_compute. repeat split; discriminate. Qed.

(** ** Readiness *)

Lemma ready_truthy (o : t) : ready o = truthy (access_token o).
Proof. unfold ready. by destruct (truthy (access_token o)). Qed.

Lemma can_sign_headers_iff (o : t) :
  can_sign_headers o = true <-> access_token o <> PNone.
Proof. unfold can_sign_headers. destruct (access_token o); simpl; split; congruence. Qed.

(** C5 (as amended). At any point of the life of an OAuth2 strategy where
    [access_token] is [None] or a true value, [ready] holds exactly when a
    token is held and [can_sign_headers()] returns the same boolean.  A
    strategy of the base class is always ready and never signs. *)
Theorem ready_iff_access_token (o : t) (a : FHIRAuth.t) :
  access_token o = PNone \/ truthy (access_token o) = true ->
  (ready o = true <-> access_token o <> PNone) /\
  can_sign_headers o = ready o /\
  FHIRAuth.ready a = true /\
  FHIRAuth.can_sign_headers a = false.
Proof.
  intros Htok. rewrite ready_truthy. unfold can_sign_headers.
  destruct Htok as [-> | Ht].
  - simpl. repeat split; congruence.
  - rewrite Ht. destruct (access_token o); simpl in *; repeat split; congruence.
Qed.

Lemma ready_iff_access_token_witness :
  let o := self Sample.authorized in
  (ready o = true <-> access_token o <> PNone) /\
  can_sign_headers o = ready o /\
  FHIRAuth.ready Sample.plain = true /\
  FHIRAuth.can_sign_headers Sample.plain = false.
Proof.
  apply (ready_iff_access_token (self Sample.authorized) Sample.plain).
  right. vm_compute. reflexivity.
Defined.

(** C5, counterexample. After a callback answered with an empty
    [access_token] the strategy holds a token that is not [None], signs
    headers, and is not ready; and a strategy of the base class is ready
    while it cannot sign. *)
Lemma ready_differs_from_can_sign_headers :
  let o := self (@handle_callback Sample.pylib
                   (PStr "https://app.example/cb?code=abc&state=0f8fad5b")
                   (Sample.pending_with Sample.empty_token)).2 in
  ~ ((ready o = true <-> access_token o <> PNone) /\ can_sign_headers o = ready o) /\
  FHIRAuth.can_sign_headers Sample.plain <> FHIRAuth.ready Sample.plain.
Proof.
  vm_compute. split; [|discriminate].
  intros [_ H]. discriminate.
Qed.

(** ** Importing and exporting state *)

Lemma falsy_get (st : gmap string pyval) (k : string) :
  st !! k = None \/ (exists v, st !! k = Some v /\ truthy v = false) ->
  truthy (py_get st k) = false.
Proof. unfold py_get. intros [-> | (v & -> & Hv)]; auto. Qed.

Lemma FHIRAuth_from_state_run (st : gmap string pyval) (a : FHIRAuth.t) :
  FHIRAuth.from_state st a =
  if dict_truthy st
  then (Return tt, FHIRAuth.set_app_id (py_or (py_get st "app_id") (FHIRAuth.app_id a)) a)
  else (Raise AssertionError, a).
Proof. unfold FHIRAuth.from_state. run. by destruct (dict_truthy st). Qed.

Lemma set_super_super (o : t) : set_super (super o) o = o.
Proof. by destruct o. Qed.

Lemma from_state_run (st : gmap string pyval) (o : t) :
  from_state st o =
  if dict_truthy st then (Return tt, imported st o) else (Raise AssertionError, o).
Proof.
  unfold from_state, via_super, zoom, mbind, M_bind.
  rewrite FHIRAuth_from_state_run.
  destruct (dict_truthy st); [reflexivity|].
  by rewrite set_super_super.
Qed.

(** C6 (as amended). [from_state] returns normally on every mapping that is
    not empty and fails its assertion on the empty one; in both cases each
    instance variable whose key is absent from the mapping, or has a false
    value there, keeps its value.  This holds for the base class and for
    the OAuth2 class. *)
Theorem from_state_keeps
    (st : gmap string pyval) (k : string) (o : t) (a : FHIRAuth.t) :
  st !! k = None \/ (exists v, st !! k = Some v /\ truthy v = false) ->
  (from_state st o).1 = (if dict_truthy st then Return tt else Raise AssertionError) /\
  field k (from_state st o).2 = field k o /\
  (FHIRAuth.from_state st a).1 = (if dict_truthy st then Return tt else Raise AssertionError) /\
  FHIRAuth.field k (FHIRAuth.from_state st a).2 = FHIRAuth.field k a.
Proof.
  intros Hk. apply falsy_get in Hk.
  rewrite from_state_run, FHIRAuth_from_state_run.
  destruct (dict_truthy st); simpl; [|auto].
  split; [reflexivity|]. split; [|split; [reflexivity|]].
  - unfold field, FHIRAuth.field. simpl.
    repeat match goal with
           | |- context [String.eqb k ?s] =>
               destruct (String.eqb_spec k s) as [-> | ?];
               [simpl; by rewrite py_or_falsy |]
           end.
    reflexivity.
  - unfold FHIRAuth.field. simpl.
    destruct (String.eqb_spec k "app_id") as [-> | _]; [by rewrite py_or_falsy | reflexivity].
Qed.

Lemma from_state_keeps_witness :
  let st : gmap string pyval := <["scope" := PStr "user/*.read"]> (<["access_token" := PStr EmptyString]> ∅) in
  let o := self Sample.authorized in
  (from_state st o).1 = (if dict_truthy st then Return tt else Raise AssertionError) /\
  field "access_token" (from_state st o).2 = field "access_token" o /\
  (FHIRAuth.from_state st Sample.plain).1 =
    (if dict_truthy st then Return tt else Raise AssertionError) /\
  FHIRAuth.field "access_token" (FHIRAuth.from_state st Sample.plain).2 =
    FHIRAuth.field "access_token" Sample.plain.
Proof.
  apply (from_state_keeps _ "access_token" (self Sample.authorized) Sample.plain).
  right. exists (PStr EmptyString). split; vm_compute; reflexivity.
Defined.

(** C6, counterexample. The empty mapping is not accepted: [from_state]
    fails its assertion on it, and so does the constructor when it is given
    the empty mapping as the state to restore. *)
Lemma from_state_rejects_empty :
  (from_state ∅ (self Sample.authorized)).1 = Raise AssertionError /\
  (FHIRAuth.from_state ∅ Sample.plain).1 = Raise AssertionError /\
  new (Some (Sample.answering ∅)) (Some ∅) = Raise AssertionError.
Proof. vm_compute. repeat split. Qed.

(** ** Reset *)

Lemma reset_run (o : t) :
  reset o = (Return tt, set_auth_state PNone (set_access_token PNone o)).
Proof. unfold reset, FHIRAuth.reset. run. by destruct o. Qed.

Lemma state_settings (o : t) :
  delete "access_token" (delete "auth_state" (state o)) = settings o.
Proof.
  unfold state, settings, FHIRAuth.state.
  apply map_eq. intros i.
  destruct (decide (i = "access_token")) as [-> | Hat].
  { rewrite lookup_delete_eq.
    destruct (is_None (refresh_token o)); simpl; lookups. }
  rewrite lookup_delete_ne by done.
  destruct (decide (i = "auth_state")) as [-> | Has].
  { rewrite lookup_delete_eq.
    destruct (is_None (refresh_token o)); simpl; lookups. }
  rewrite lookup_delete_ne by done.
  destruct (is_None (auth_state o)), (is_None (access_token o)),
    (is_None (refresh_token o)); simpl;
    destruct (decide (i = "refresh_token")) as [-> | Hrt]; lookups;
    by rewrite ?(lookup_insert_ne _ "refresh_token"),
         ?(lookup_insert_ne _ "access_token"),
         ?(lookup_insert_ne _ "auth_state") by congruence.
Qed.

(** C9. [reset()] returns normally, sets [access_token] and [auth_state]
    to [None], so that [ready] is false, and changes no other instance
    variable; the exported state afterwards is the one before without the
    keys [access_token] and [auth_state]. *)
Theorem reset_clears_token_and_nonce (o : t) :
  let o' := (reset o).2 in
  (reset o).1 = Return tt /\
  access_token o' = PNone /\ auth_state o' = PNone /\ ready o' = false /\
  refresh_token o' = refresh_token o /\ scope o' = scope o /\
  _registration_uri o' = _registration_uri o /\ _authorize_uri o' = _authorize_uri o /\
  _redirect_uri o' = _redirect_uri o /\ _token_uri o' = _token_uri o /\
  super o' = super o /\
  state o' = delete "access_token" (delete "auth_state" (state o)).
Proof.
  rewrite reset_run. simpl. repeat split.
  rewrite state_settings. unfold state, settings. simpl. reflexivity.
Qed.

Example reset_authorized :
  let o := self Sample.authorized in
  let o' := (reset o).2 in
  ready o = true /\ ready o' = false /\
  state o !! "refresh_token" = Some (PStr "r1") /\
  state o' !! "refresh_token" = Some (PStr "r1") /\
  state o' !! "access_token" = None /\
  state o' !! "authorize_uri" = state o !! "authorize_uri".
Proof. vm_compute. repeat split. Qed.

(** ** The authorize URL *)



Section Authorize.
Context {pylib : PyLib}.

Lemma authorize_params_run (w : world) (srv : FHIRServer) :
  server (self w) = Some srv ->
  _authorize_params w = (Return (auth_params_of (self (pended w))), pended w).
Proof.
  intros Hsrv. unfold _authorize_params, pended, should_save_state, draw_uuid4.
  run. destruct (is_None (auth_state (self w))); simpl; [|reflexivity].
  unfold server in *. simpl. rewrite Hsrv. reflexivity.
Qed.

Lemma authorize_uri_run (w : world) (srv : FHIRServer) :
  server (self w) = Some srv ->
  authorize_uri w =
    (rebuild_uri (_authorize_uri (self w)) (auth_params_of (self (pended w))), pended w).
Proof.
  intros Hsrv. unfold authorize_uri. unfold mbind at 1, M_bind.
  rewrite (authorize_params_run _ _ Hsrv). run.
  unfold pended. by destruct (is_None (auth_state (self w))).
Qed.






(** C10. On a strategy with a server, no authorize endpoint and no pending
    nonce, and a library that cannot build a URL from a null endpoint,
    reading [authorize_uri] raises; by then a nonce has been minted from a
    fresh UUID and [should_save_state] has been called, and both remain. *)
Theorem authorize_uri_unconfigured (w : world) (srv : FHIRServer) :
  server (self w) = Some srv ->
  _authorize_uri (self w) = PNone ->
  auth_state (self w) = PNone ->
  (forall ps, ps !! "response_type" = Some (PStr "code") ->
              exists e, rebuild_uri PNone ps = Raise e) ->
  exists e w',
    authorize_uri w = (Raise e, w') /\
    auth_state (self w') = PStr (substring 0 8 (uuid4 (drawn (env w)))) /\
    trace (env w') = (trace (env w) ++ [SaveState])%list /\
    drawn (env w') = S (drawn (env w)).
Proof.
  intros Hsrv Huri Hst Hlib.
  destruct (Hlib (auth_params_of (self (pended w)))) as [e He].
  { unfold auth_params_of. lookups. }
  exists e, (pended w).
  rewrite (authorize_uri_run _ _ Hsrv), Huri, He.
  unfold pended. rewrite Hst. simpl. auto.
Qed.

End Authorize.

(** The stand-in library meets the assumptions made on the library. *)

Lemma sample_join_empty (l : list string) :
  Sample.join "&" l = EmptyString -> l = [] \/ l = [EmptyString].
Proof.
  destruct l as [|h t]; [auto|]. simpl. intros Hj. right.
  assert (forall (t : list string) (acc : string),
            fold_left (fun acc s => acc +:+ "&" +:+ s) t acc = EmptyString ->
            t = [] /\ acc = EmptyString) as Hfold.
  { clear. intros t. induction t as [|s t IH]; intros acc Hf; [auto|].
    simpl in Hf. apply IH in Hf. destruct Hf as [_ Hf]. by destruct acc. }
  apply Hfold in Hj. destruct Hj as [-> ->]. reflexivity.
Qed.


Lemma sample_rejects_null (ps : gmap string pyval) :
  ps !! "response_type" = Some (PStr "code") ->
  exists e, @rebuild_uri Sample.pylib PNone ps = Raise e.
Proof.
  intros Hps. exists TypeError.
  unfold rebuild_uri, merged_params. simpl.
  destruct (String.eqb_spec (Sample.join "&" (map_to_list ps ≫= Sample.encode_field))
              EmptyString) as [Hj | _]; [|reflexivity].
  assert ("response_type=code" ∈ map_to_list ps ≫= Sample.encode_field) as Hin.
  { apply list_elem_of_bind. exists ("response_type", PStr "code").
    split; [apply list_elem_of_singleton; reflexivity | by apply elem_of_map_to_list]. }
  apply sample_join_empty in Hj as [Hj | Hj]; rewrite Hj in Hin.
  - by apply not_elem_of_nil in Hin.
  - apply list_elem_of_singleton in Hin. discriminate.
Qed.


(** The two reads on the stand-in library. *)
Example authorize_uri_reads :
  let first := @authorize_uri Sample.pylib Sample.fresh in
  let second := @authorize_uri Sample.pylib first.2 in
  first.1 = Return (PStr "https://ehr.example/auth?scope=launch&state=0f8fad5b&client_id=my_app&aud=x&response_type=code&redirect_uri=None") /\
  second.1 = first.1 /\
  trace (env first.2) = [SaveState] /\
  trace (env second.2) = [SaveState].
Proof. vm_compute. repeat split. Qed.

Lemma authorize_uri_unconfigured_witness :
  exists e w',
    @authorize_uri Sample.pylib Sample.unconfigured = (Raise e, w') /\
    auth_state (self w') =
      PStr (substring 0 8 (@uuid4 Sample.pylib (drawn (env Sample.unconfigured)))) /\
    trace (env w') = (trace (env Sample.unconfigured) ++ [SaveState])%list /\
    drawn (env w') = S (drawn (env Sample.unconfigured)).
Proof.
  apply (@authorize_uri_unconfigured Sample.pylib Sample.unconfigured
           (Sample.answering (PStr <$> Sample.token_doc))).
  - vm_compute. reflexivity.
  - vm_compute. reflexivity.
  - vm_compute. reflexivity.
  - exact sample_rejects_null.
Defined.

(** ** Which values the configuration can hold

    Scope and endpoints are written by [__init__] and [from_state] only, so
    they are [None] or a true value in every world a strategy can reach. *)

Lemma settled_py_or (x y : pyval) : settled y -> settled (py_or x y).
Proof.
  intros Hy. unfold py_or. destruct (truthy x) eqn:Hx; [by right | done].
Qed.

Lemma well_configured_config (o o' : t) :
  config o' = config o -> well_configured o -> well_configured o'.
Proof. unfold config, well_configured. intros [= -> -> -> -> ->]. done. Qed.

Lemma keeps_ret {A} (a : A) : keeps_config (mret a).
Proof. by intros w. Qed.

Lemma keeps_raise {A} (e : exn) : keeps_config (@raise world A e).
Proof. by intros w. Qed.

Lemma keeps_get : keeps_config (@get world).
Proof. by intros w. Qed.

Lemma keeps_lift {A} (r : result A) : keeps_config (lift r).
Proof. by intros w. Qed.

Lemma keeps_bind {A B} (m : M world A) (f : A -> M world B) :
  keeps_config m -> (forall a, keeps_config (f a)) -> keeps_config (m ≫= f).
Proof.
  intros Hm Hf w. unfold mbind, M_bind. specialize (Hm w).
  destruct (m w) as [[a|e] w']; simpl in *; [|done].
  by rewrite Hf.
Qed.

Lemma keeps_try_except {A} (m : M world A) (h : exn -> M world A) :
  keeps_config m -> (forall e, keeps_config (h e)) -> keeps_config (try_except m h).
Proof.
  intros Hm Hh w. unfold try_except. specialize (Hm w).
  destruct (m w) as [[a|e] w']; simpl in *; [done|].
  by rewrite Hh.
Qed.

Lemma keeps_record (e : event) : keeps_config (modify (record e)).
Proof. by intros w. Qed.

Lemma keeps_on_self {A} (m : M t A) :
  (forall o, config (m o).2 = config o) -> keeps_config (on_self m).
Proof.
  intros Hm w. unfold on_self, zoom. specialize (Hm (self w)).
  by destruct (m (self w)).
Qed.

Create HintDb keeps.
#[local] Hint Resolve keeps_ret keeps_raise keeps_get keeps_lift keeps_record : keeps.

(** Walks through a method body, one statement at a time. *)
Ltac keeps_steps :=
  repeat first
    [ progress intros
    | apply keeps_bind
    | apply keeps_try_except
    | solve [auto with keeps]
    | solve [apply keeps_on_self; intros []; reflexivity]
    | match goal with
      | |- keeps_config (if ?c then _ else _) => destruct c
      | |- keeps_config (match ?x with _ => _ end) => destruct x
      end ].

Lemma keeps_should_save_state : keeps_config should_save_state.
Proof. unfold should_save_state. keeps_steps. Qed.

Lemma keeps_call_post_as_form (uri : pyval) (params : gmap string pyval) :
  keeps_config (call_post_as_form uri params).
Proof. unfold call_post_as_form. keeps_steps. Qed.

Lemma keeps_request_access_token (params : gmap string pyval) :
  keeps_config (_request_access_token params).
Proof.
  unfold _request_access_token. pose proof keeps_call_post_as_form. keeps_steps.
Qed.

Section Reachable.
Context {pylib : PyLib}.

Lemma keeps_draw_uuid4 : keeps_config draw_uuid4.
Proof. by intros w. Qed.

Lemma keeps_authorize_uri : keeps_config authorize_uri.
Proof.
  unfold authorize_uri, _authorize_params.
  pose proof keeps_draw_uuid4. pose proof keeps_should_save_state. keeps_steps.
Qed.

Lemma keeps_handle_callback (url : pyval) : keeps_config (handle_callback url).
Proof.
  unfold handle_callback, _code_exchange_params.
  pose proof keeps_request_access_token. keeps_steps.
Qed.

Lemma keeps_reauthorize : keeps_config reauthorize.
Proof.
  unfold reauthorize, _reauthorize_params.
  pose proof keeps_request_access_token. keeps_steps.
Qed.

End Reachable.

(** ** Construction and the round trip through the exported state *)

Lemma new_run (server : option FHIRServer) (st : option (gmap string pyval)) :
  new server st =
  match server, st with
  | None, _ => Raise AssertionError
  | Some srv, None => Return (attached srv)
  | Some srv, Some m =>
      if dict_truthy m then Return (imported m (attached srv)) else Raise AssertionError
  end.
Proof.
  unfold new, __init__, FHIRAuth.__init__.
  destruct server as [srv|]; [|reflexivity].
  destruct st as [m|]; [|reflexivity].
  run. rewrite from_state_run.
  destruct (dict_truthy m); reflexivity.
Qed.

Lemma new_well_configured (server : option FHIRServer)
    (st : option (gmap string pyval)) (o : t) :
  new server st = Return o -> well_configured o.
Proof.
  rewrite new_run. destruct server as [srv|]; [|discriminate].
  destruct st as [m|].
  - destruct (dict_truthy m); [|discriminate]. intros [= <-].
    unfold well_configured, imported. simpl.
    repeat split; apply settled_py_or; by left.
  - intros [= <-]. unfold well_configured. simpl. repeat split; by left.
Qed.

Lemma from_state_well_configured (st : gmap string pyval) (o : t) :
  well_configured o -> well_configured (from_state st o).2.
Proof.
  rewrite from_state_run. destruct (dict_truthy st); simpl; [|done].
  unfold well_configured, imported. simpl.
  intros (? & ? & ? & ? & ?). repeat split; by apply settled_py_or.
Qed.

Lemma reachable_well_configured `{PyLib} (w : world) :
  reachable w -> well_configured (self w).
Proof.
  induction 1 as [srv st o e Hnew | c w Hw IH].
  - simpl. by eapply new_well_configured.
  - destruct c as [|st|bearer headers| | |]; unfold after.
    + eapply well_configured_config; [|exact IH].
      unfold on_self, zoom. rewrite reset_run. reflexivity.
    + unfold on_self, zoom.
      pose proof (from_state_well_configured st (self w) IH) as Hfs.
      by destruct (from_state st (self w)).
    + eapply well_configured_config; [|exact IH].
      unfold on_self, zoom, signed_headers. run.
      by destruct (negb (can_sign_headers (self w))).
    + eapply well_configured_config; [|exact IH]. apply keeps_authorize_uri.
    + eapply well_configured_config; [|exact IH]. apply keeps_handle_callback.
    + eapply well_configured_config; [|exact IH]. apply keeps_reauthorize.
Qed.

(** What the exported state holds under the keys read back by
    [from_state]. *)
Lemma state_get (o : t) :
  py_get (state o) "scope" = scope o /\
  py_get (state o) "registration_uri" = _registration_uri o /\
  py_get (state o) "authorize_uri" = _authorize_uri o /\
  py_get (state o) "redirect_uri" = _redirect_uri o /\
  py_get (state o) "token_uri" = _token_uri o /\
  py_get (state o) "access_token" = access_token o.
Proof.
  unfold state, FHIRAuth.state, py_get.
  destruct (auth_state o), (access_token o), (refresh_token o); simpl;
    repeat split; lookups.
Qed.

Lemma state_truthy (o : t) : dict_truthy (state o) = true.
Proof.
  apply (dict_truthy_lookup _ "token_uri" (_token_uri o)).
  unfold state, FHIRAuth.state.
  destruct (auth_state o), (access_token o), (refresh_token o); simpl; lookups.
Qed.

Lemma py_or_settled (v : pyval) : settled v -> py_or v PNone = v.
Proof. unfold py_or. intros [-> | ->]; reflexivity. Qed.

Lemma round_trip (o : t) (srv : FHIRServer) :
  well_configured o ->
  exists o',
    new (Some srv) (Some (state o)) = Return o' /\
    ready o' = ready o /\ config o' = config o.
Proof.
  intros (Hs & Hr & Ha & Hd & Ht).
  exists (imported (state o) (attached srv)).
  rewrite new_run, state_truthy. split; [reflexivity|].
  destruct (state_get o) as (Es & Er & Ea & Ed & Et & Etok).
  split.
  - rewrite !ready_truthy. unfold imported. simpl. rewrite Etok.
    unfold py_or. by destruct (truthy (access_token o)) eqn:E.
  - unfold config, imported. simpl. rewrite Es, Er, Ea, Ed, Et.
    by rewrite !py_or_settled.
Qed.

(** C8. For a strategy that holds an access token and whose scope and
    endpoints are each [None] or a true value, a new strategy constructed
    from its exported state is constructed without error and has the same
    [ready] value, the same scope and the same four endpoints.  Every
    strategy in a world reachable from its construction is of this kind, so
    the round trip holds for all of them. *)
Theorem state_round_trip `{PyLib} (w : world) (srv : FHIRServer) :
  reachable w \/ well_configured (self w) ->
  access_token (self w) <> PNone ->
  exists o',
    new (Some srv) (Some (state (self w))) = Return o' /\
    ready o' = ready (self w) /\
    scope o' = scope (self w) /\
    _registration_uri o' = _registration_uri (self w) /\
    _authorize_uri o' = _authorize_uri (self w) /\
    _redirect_uri o' = _redirect_uri (self w) /\
    _token_uri o' = _token_uri (self w).
Proof.
  intros Hw _.
  assert (well_configured (self w)) as Hwc
    by (destruct Hw as [Hw | Hw]; [by apply reachable_well_configured | done]).
  destruct (round_trip (self w) srv Hwc) as (o' & Hnew & Hready & Hconfig).
  exists o'. unfold config in Hconfig. injection Hconfig as -> -> -> -> ->.
  auto 10.
Qed.

Lemma sample_authorized_reachable : @reachable Sample.pylib Sample.authorized.
Proof.
  apply (@reachable_call Sample.pylib
           (HandleCallback (PStr "https://app.example/cb?code=abc&state=0f8fad5b"))
           Sample.pending).
  apply (@reachable_call Sample.pylib AuthorizeUri Sample.fresh).
  apply (@reachable_new Sample.pylib
           (Some (Sample.answering (PStr <$> Sample.token_doc)))
           (Some Sample.configuration) (self Sample.fresh) Sample.quiet).
  rewrite new_run. reflexivity.
Qed.

Lemma state_round_trip_witness :
  exists o',
    new (Some (Sample.answering ∅)) (Some (state (self Sample.authorized))) = Return o' /\
    ready o' = ready (self Sample.authorized) /\
    scope o' = scope (self Sample.authorized) /\
    _registration_uri o' = _registration_uri (self Sample.authorized) /\
    _authorize_uri o' = _authorize_uri (self Sample.authorized) /\
    _redirect_uri o' = _redirect_uri (self Sample.authorized) /\
    _token_uri o' = _token_uri (self Sample.authorized).
Proof.
  apply (@state_round_trip Sample.pylib Sample.authorized (Sample.answering ∅)).
  - right. unfold well_configured, settled.
    repeat split; vm_compute; (by left) || (by right).
  - vm_compute. discriminate.
Defined.

(** The round trip on the authorized strategy of the example. *)
Example round_trip_authorized :
  match new (Some (Sample.answering ∅)) (Some (state (self Sample.authorized))) with
  | Return o' =>
      ready o' = true /\ scope o' = PStr "launch" /\
      _authorize_uri o' = PStr "https://ehr.example/auth?aud=x" /\
      _token_uri o' = PStr "https://ehr.example/token"
  | Raise _ => False
  end.
Proof. vm_compute. repeat split. Qed.

(** * Further properties *)

(** ** The registry *)

Lemma register_run (cls : Registry.klass) (reg : gmap string Registry.klass) :
  Registry.auth_type cls <> EmptyString ->
  Registry.register cls reg =
  match reg !! Registry.auth_type cls with
  | None => (None, <[Registry.auth_type cls := cls]> reg)
  | Some existing =>
      if bool_decide (existing = cls) then (None, reg)
      else (Some (Registry.AlreadyRegistered existing (Registry.auth_type cls)), reg)
  end.
Proof.
  intros Htag. unfold Registry.register. simpl.
  destruct (String.eqb_spec (Registry.auth_type cls) EmptyString); [done|]. simpl.
  destruct (reg !! Registry.auth_type cls) as [existing|]; [|done].
  by repeat case_bool_decide.
Qed.

Lemma register_untagged (cls : Registry.klass) (reg : gmap string Registry.klass) :
  Registry.auth_type cls = EmptyString ->
  Registry.register cls reg = (Some (Registry.NoAuthType cls), reg).
Proof. intros Htag. unfold Registry.register. by rewrite Htag. Qed.

(** X1. [register] never rebinds: a tag bound before the call is bound to
    the same class after it, whether the call returns or raises. *)
Theorem register_keeps_bindings
    (cls c : Registry.klass) (reg : gmap string Registry.klass) (tag : string) :
  reg !! tag = Some c ->
  (Registry.register cls reg).2 !! tag = Some c.
Proof.
  intros Htag.
  destruct (decide (Registry.auth_type cls = EmptyString)) as [He | He].
  { by rewrite register_untagged. }
  rewrite register_run by done.
  destruct (reg !! Registry.auth_type cls) as [existing|] eqn:Hreg.
  - by case_bool_decide.
  - simpl. rewrite lookup_insert_ne; [done|]. congruence.
Qed.

Lemma register_keeps_bindings_witness :
  (Registry.register {| Registry.class_name := "MyAuth"; Registry.auth_type := "oauth2" |}
     Registry.at_import).2 !! "oauth2" = Some Registry.FHIROAuth2Auth_class.
Proof. apply register_keeps_bindings. reflexivity. Defined.

(** X2. Registering a class a second time is accepted and changes nothing:
    once [register] has returned normally for a class, the class is bound to
    its tag and a further call returns normally with the same registry. *)
Theorem register_twice (cls : Registry.klass) (reg : gmap string Registry.klass) :
  (Registry.register cls reg).1 = None ->
  let reg' := (Registry.register cls reg).2 in
  reg' !! Registry.auth_type cls = Some cls /\
  Registry.register cls reg' = (None, reg').
Proof.
  intros Hok.
  destruct (decide (Registry.auth_type cls = EmptyString)) as [He | He].
  { by rewrite register_untagged in Hok. }
  rewrite register_run in * by done. simpl.
  destruct (reg !! Registry.auth_type cls) as [existing|] eqn:Hreg.
  - case_bool_decide as Hex; [|done]. subst existing. simpl.
    split; [done|]. rewrite register_run, Hreg by done. by rewrite bool_decide_eq_true_2.
  - simpl. rewrite lookup_insert_eq. split; [done|].
    rewrite register_run, lookup_insert_eq by done. by rewrite bool_decide_eq_true_2.
Qed.

Lemma register_twice_witness :
  let reg' := (Registry.register Registry.FHIROAuth2Auth_class ∅).2 in
  reg' !! Registry.auth_type Registry.FHIROAuth2Auth_class =
    Some Registry.FHIROAuth2Auth_class /\
  Registry.register Registry.FHIROAuth2Auth_class reg' = (None, reg').
Proof. apply (register_twice Registry.FHIROAuth2Auth_class ∅). reflexivity. Defined.

(** X3. [register] raises in exactly two cases: the class has no
    [auth_type], or its tag is bound to another class; in both the registry
    is left as it was. *)
Theorem register_raises_iff (cls : Registry.klass) (reg : gmap string Registry.klass) :
  ((Registry.register cls reg).1 <> None <->
   Registry.auth_type cls = EmptyString \/
   exists c, reg !! Registry.auth_type cls = Some c /\ c <> cls) /\
  ((Registry.register cls reg).1 <> None -> (Registry.register cls reg).2 = reg).
Proof.
  destruct (decide (Registry.auth_type cls = EmptyString)) as [He | He].
  { rewrite register_untagged by done. simpl. split; [|done]. split; [auto | done]. }
  rewrite register_run by done.
  destruct (reg !! Registry.auth_type cls) as [existing|] eqn:Hreg.
  - case_bool_decide as Hex; simpl.
    + split; [|done]. split; [done|].
      intros [? | (c & [= <-] & Hne)]; done.
    + split; [|done]. split; [|done]. intros _. right. by exists existing.
  - simpl. split; [|done]. split; [done|].
    intros [? | (c & [=] & _)]. done.
Qed.

Lemma register_raises_iff_witness :
  let cls := {| Registry.class_name := "MyAuth"; Registry.auth_type := "oauth2" |} in
  (Registry.register cls Registry.at_import).2 = Registry.at_import.
Proof.
  apply (register_raises_iff
           {| Registry.class_name := "MyAuth"; Registry.auth_type := "oauth2" |}
           Registry.at_import).
  vm_compute. discriminate.
Defined.

(** A tag that is [None], empty, or false in any other way selects the
    class registered for ["none"]. *)
Theorem create_default_tag
    (other : Registry.klass -> option FHIRServer -> option (gmap string pyval) ->
             Registry.outcome)
    (reg : gmap string Registry.klass) (tag : pyval)
    (server : option FHIRServer) (state : option (gmap string pyval)) :
  truthy tag = false ->
  Registry.create other reg tag server state =
  Registry.create other reg (PStr "none") server state.
Proof. intros Htag. unfold Registry.create. by rewrite Htag. Qed.

Lemma create_default_tag_witness :
  Registry.create (fun _ _ _ => Registry.Raised TypeError) Registry.at_import PNone
    (Some (Sample.answering ∅)) None =
  Registry.create (fun _ _ _ => Registry.Raised TypeError) Registry.at_import (PStr "none")
    (Some (Sample.answering ∅)) None.
Proof. apply create_default_tag. reflexivity. Defined.

Lemma at_import_lookup (tag : string) :
  Registry.at_import !! tag =
  if String.eqb tag "none" then Some Registry.FHIRAuth_class
  else if String.eqb tag "oauth2" then Some Registry.FHIROAuth2Auth_class
  else None.
Proof.
  change Registry.at_import with
    (<["oauth2" := Registry.FHIROAuth2Auth_class]>
       (<["none" := Registry.FHIRAuth_class]> (∅ : gmap string Registry.klass))).
  destruct (String.eqb_spec tag "none") as [-> | Hn]; [by lookups|].
  destruct (String.eqb_spec tag "oauth2") as [-> | Ho]; [by lookups|].
  rewrite !lookup_insert_ne by congruence. by rewrite lookup_empty.
Qed.

(** X4. With the registry as the module leaves it after import, [create]
    builds a [FHIRAuth] for the tag ["none"] and for every false tag
    ([None], the empty string), a [FHIROAuth2Auth] for ["oauth2"], passing
    on what the constructor raises, and refuses every other tag; classes
    defined elsewhere are never consulted. *)
Theorem create_at_import
    (other : Registry.klass -> option FHIRServer -> option (gmap string pyval) ->
             Registry.outcome)
    (tag : pyval) (server : option FHIRServer) (state : option (gmap string pyval)) :
  Registry.create other Registry.at_import tag server state =
  if negb (truthy tag) || py_eqb tag (PStr "none") then
    match FHIRAuth.new server state with
    | Return a => Registry.Created (Registry.NoAuth a)
    | Raise e => Registry.Raised e
    end
  else if py_eqb tag (PStr "oauth2") then
    match FHIROAuth2Auth.new server state with
    | Return o => Registry.Created (Registry.OAuth2 o)
    | Raise e => Registry.Raised e
    end
  else match tag with
       | PList _ => Registry.Raised TypeError
       | _ => Registry.Refused (Registry.NoClassRegistered tag)
       end.
Proof.
  unfold Registry.create.
  destruct (truthy tag) eqn:Ht; simpl; [|by rewrite at_import_lookup].
  destruct tag as [|b|z|s|s|l]; simpl in *; try done.
  rewrite at_import_lookup.
  destruct (String.eqb_spec s "none") as [-> | Hn]; [reflexivity|].
  destruct (String.eqb_spec s "oauth2") as [-> | Ho]; reflexivity.
Qed.

Lemma create_oauth2_run
    (other : Registry.klass -> option FHIRServer -> option (gmap string pyval) ->
             Registry.outcome)
    (server : option FHIRServer) (state : option (gmap string pyval)) :
  Registry.create other Registry.at_import (PStr "oauth2") server state =
  match FHIROAuth2Auth.new server state with
  | Return o => Registry.Created (Registry.OAuth2 o)
  | Raise e => Registry.Raised e
  end.
Proof.
  unfold Registry.create. change (truthy (PStr "oauth2")) with true.
  cbv [negb Registry.find]. rewrite at_import_lookup. reflexivity.
Qed.

(** X5. An OAuth2 strategy created from a persisted state that is not empty
    is constructed without error, holds the given server, and is ready
    exactly when the state carries an [access_token] with a true value. *)
Theorem create_oauth2_from_state
    (other : Registry.klass -> option FHIRServer -> option (gmap string pyval) ->
             Registry.outcome)
    (srv : FHIRServer) (st : gmap string pyval) :
  st <> ∅ ->
  exists o,
    Registry.create other Registry.at_import (PStr "oauth2") (Some srv) (Some st) =
      Registry.Created (Registry.OAuth2 o) /\
    server o = Some srv /\
    ready o = truthy (py_get st "access_token").
Proof.
  intros Hst. exists (imported st (attached srv)).
  rewrite create_oauth2_run, new_run.
  destruct (dict_truthy st) eqn:Ht.
  - split; [reflexivity|]. split; [reflexivity|].
    rewrite ready_truthy. simpl. unfold py_or.
    by destruct (truthy (py_get st "access_token")) eqn:E.
  - by apply dict_truthy_empty in Ht.
Qed.

Lemma create_oauth2_from_state_witness :
  exists o,
    Registry.create (fun _ _ _ => Registry.Raised TypeError) Registry.at_import
      (PStr "oauth2") (Some (Sample.answering ∅)) (Some Sample.snapshot) =
      Registry.Created (Registry.OAuth2 o) /\
    server o = Some (Sample.answering ∅) /\
    ready o = truthy (py_get Sample.snapshot "access_token").
Proof.
  apply create_oauth2_from_state.
  intros H. apply (f_equal (fun m => m !! "app_id")) in H. vm_compute in H. discriminate.
Defined.

(** ** What a computation leaves alone *)

Lemma preserves_bind {A B C} (f : world -> C) (m : M world A) (k : A -> M world B) :
  preserves f m -> (forall a, preserves f (k a)) -> preserves f (m ≫= k).
Proof.
  intros Hm Hk w. unfold mbind, M_bind. specialize (Hm w).
  destruct (m w) as [[a|e] w']; simpl in *; [|done].
  by rewrite Hk.
Qed.

Lemma preserves_try_except {A C} (f : world -> C) (m : M world A) (h : exn -> M world A) :
  preserves f m -> (forall e, preserves f (h e)) -> preserves f (try_except m h).
Proof.
  intros Hm Hh w. unfold try_except. specialize (Hm w).
  destruct (m w) as [[a|e] w']; simpl in *; [done|].
  by rewrite Hh.
Qed.

(** Walks through a method body; the statements that do not bind are
    settled by computation. *)
Ltac preserves_steps :=
  repeat first
    [ progress intros
    | apply preserves_bind
    | apply preserves_try_except
    | assumption
    | solve [let w := fresh "w" in intros w; reflexivity]
    | match goal with
      | |- preserves _ (if ?c then _ else _) => destruct c
      | |- preserves _ (match ?x with _ => _ end) => destruct x
      end ].

Lemma request_access_token_beside_tokens (params : gmap string pyval) :
  preserves beside_tokens (_request_access_token params).
Proof.
  unfold _request_access_token, call_post_as_form. preserves_steps.
Qed.

(** ** The token exchange, continued *)

Lemma request_access_token_no_server (params : gmap string pyval) (w : world) :
  server (self w) = None ->
  _request_access_token params w = (Raise (Exception NoServer), w).
Proof.
  intros Hsrv. unfold _request_access_token. run. by rewrite Hsrv.
Qed.

Lemma request_access_token_raise_run
    (params : gmap string pyval) (w : world) (srv : FHIRServer) (e : exn) :
  server (self w) = Some srv ->
  post_as_form srv (trace (env w)) (_token_uri (self w)) params = Raise e ->
  _request_access_token params w =
    (Raise e, record (PostAsForm (_token_uri (self w)) params) w).
Proof.
  intros Hsrv Hpost. unfold _request_access_token, call_post_as_form.
  run. rewrite Hsrv. simpl. rewrite Hsrv. simpl. by rewrite Hpost.
Qed.

(** X6. When the server raises, the exception reaches the caller, the call
    is on the trace, and the strategy object is exactly as before: no
    token is touched. *)
Theorem request_access_token_server_raises
    (params : gmap string pyval) (w : world) (srv : FHIRServer) (e : exn) :
  server (self w) = Some srv ->
  post_as_form srv (trace (env w)) (_token_uri (self w)) params = Raise e ->
  _request_access_token params w =
    (Raise e, record (PostAsForm (_token_uri (self w)) params) w) /\
  self (_request_access_token params w).2 = self w.
Proof.
  intros Hsrv Hpost.
  by rewrite (request_access_token_raise_run _ _ _ _ Hsrv Hpost).
Qed.

Lemma request_access_token_server_raises_witness :
  let srv := {| post_as_form := fun _ _ _ => Raise (LibraryError "timeout") |} in
  let w := Sample.world_of (new (Some srv) (Some Sample.snapshot)) in
  _request_access_token Sample.refresh_params w =
    (Raise (LibraryError "timeout"),
     record (PostAsForm (_token_uri (self w)) Sample.refresh_params) w) /\
  self (_request_access_token Sample.refresh_params w).2 = self w.
Proof.
  apply (request_access_token_server_raises Sample.refresh_params _
           {| post_as_form := fun _ _ _ => Raise (LibraryError "timeout") |});
    vm_compute; reflexivity.
Defined.

Lemma request_access_token_trace (params : gmap string pyval) (w : world) :
  let w' := (_request_access_token params w).2 in
  trace (env w') = trace (env w) \/
  trace (env w') = (trace (env w) ++ [PostAsForm (_token_uri (self w)) params])%list.
Proof.
  destruct (server (self w)) as [srv|] eqn:Hsrv.
  - right.
    destruct (post_as_form srv (trace (env w)) (_token_uri (self w)) params)
      as [resp|e] eqn:Hpost.
    + rewrite (request_access_token_run _ _ _ _ Hsrv Hpost). unfold exchanged. simpl.
      by destruct (is_None (py_get resp "access_token")).
    + by rewrite (request_access_token_raise_run _ _ _ _ Hsrv Hpost).
  - left. by rewrite request_access_token_no_server.
Qed.

(** ** The callback, continued *)

Section CallbackCases.
Context {pylib : PyLib}.

Lemma handle_callback_parsed (url : pyval) (args : gmap string string) (w : world) :
  url <> PNone ->
  callback_args url = Return args ->
  handle_callback url w =
  match extract_oauth_error args with
  | Some err => (Raise (Exception (OAuthError err)), w)
  | None =>
      let stt := from_option PStr PNone (args !! "state") in
      if is_None stt || negb (py_eqb (auth_state (self w)) stt)
      then (Raise (Exception (InvalidState stt (auth_state (self w)))), w)
      else match args !! "code" with
           | None => (Raise (Exception (NoCode (dom args))), w)
           | Some code => _request_access_token (exchange_params_of code (self w)) w
           end
  end.
Proof.
  intros Hurl Hargs. unfold handle_callback.
  destruct url; try congruence; run; rewrite Hargs.
  all: destruct (extract_oauth_error args); [reflexivity|].
  all: destruct (is_None _ || negb _); [reflexivity|].
  all: destruct (args !! "code"); reflexivity.
Qed.

(** X7. A callback whose query carries an OAuth2 error indication raises
    the error text and leaves the world as it was, even if its [state] is
    the pending nonce and a [code] is present. *)
Theorem handle_callback_oauth_error
    (url : pyval) (args : gmap string string) (err : string) (w : world) :
  url <> PNone ->
  callback_args url = Return args ->
  extract_oauth_error args = Some err ->
  handle_callback url w = (Raise (Exception (OAuthError err)), w).
Proof.
  intros Hurl Hargs Herr. by rewrite (handle_callback_parsed _ _ _ Hurl Hargs), Herr.
Qed.

(** X8. A callback whose [state] is the pending nonce but which has no
    [code] raises the missing-code exception, naming the parameters it did
    receive, and leaves the world as it was. *)
Theorem handle_callback_missing_code
    (url : pyval) (args : gmap string string) (stt : string) (w : world) :
  url <> PNone ->
  callback_args url = Return args ->
  extract_oauth_error args = None ->
  args !! "state" = Some stt ->
  auth_state (self w) = PStr stt ->
  args !! "code" = None ->
  handle_callback url w = (Raise (Exception (NoCode (dom args))), w).
Proof.
  intros Hurl Hargs Herr Hstt Hnonce Hcode.
  rewrite (handle_callback_parsed _ _ _ Hurl Hargs), Herr, Hstt, Hnonce, Hcode. simpl.
  by rewrite String.eqb_refl.
Qed.

Lemma handle_callback_unparsed (url : pyval) (e : exn) (w : world) :
  url <> PNone ->
  callback_args url = Raise e ->
  handle_callback url w = (Raise (Exception (InvalidCallbackURL e)), w).
Proof.
  intros Hurl Hargs. unfold handle_callback.
  destruct url; try congruence; run; by rewrite Hargs.
Qed.

(** X9. A callback URL that the library cannot split or parse raises the
    invalid-URL exception, which carries the library's exception; a [None]
    URL raises the no-URL exception.  Both leave the world as it was. *)
Theorem handle_callback_invalid_url (url : pyval) (e : exn) (w : world) :
  callback_args url = Raise e ->
  handle_callback url w =
    (Raise (Exception (if is_None url then NoCallbackURL else InvalidCallbackURL e)), w).
Proof.
  intros Hargs. destruct url; [reflexivity|..]; by apply handle_callback_unparsed.
Qed.

(** X10. A callback that passes the checks sends exactly one request: a
    form POST to the token endpoint with the client id, the code, the grant
    type [authorization_code], the redirect URI and the nonce, and without
    the scope.  Its outcome and the world afterwards are those of the
    exchange on the server's answer. *)
Theorem handle_callback_exchanges
    (url : pyval) (args : gmap string string) (stt code : string)
    (w : world) (srv : FHIRServer) (resp : gmap string pyval) :
  url <> PNone ->
  callback_args url = Return args ->
  extract_oauth_error args = None ->
  args !! "state" = Some stt ->
  auth_state (self w) = PStr stt ->
  args !! "code" = Some code ->
  server (self w) = Some srv ->
  post_as_form srv (trace (env w)) (_token_uri (self w))
    (exchange_params_of code (self w)) = Return resp ->
  let params := exchange_params_of code (self w) in
  handle_callback url w =
    ((if is_None (py_get resp "access_token")
      then Raise (Exception NoAccessToken)
      else Return (launch_context resp)),
     exchanged params resp w) /\
  trace (env (exchanged params resp w)) =
    (trace (env w) ++ [PostAsForm (_token_uri (self w)) params])%list /\
  params !! "scope" = None /\
  params !! "code" = Some (PStr code) /\
  params !! "state" = Some (PStr stt) /\
  params !! "grant_type" = Some (PStr "authorization_code").
Proof.
  intros Hurl Hargs Herr Hstt Hnonce Hcode Hsrv Hpost. simpl.
  rewrite (handle_callback_parsed _ _ _ Hurl Hargs), Herr, Hstt, Hnonce, Hcode. simpl.
  rewrite String.eqb_refl. simpl.
  assert (exchange_params_of code (self w) =
          <["client_id" := app_id (self w)]>
          (<["code" := PStr code]>
          (<["grant_type" := PStr "authorization_code"]>
          (<["redirect_uri" := _redirect_uri (self w)]>
          (<["state" := PStr stt]> ∅))))) as Hparams
    by (unfold exchange_params_of; by rewrite Hnonce).
  split; [by rewrite (request_access_token_run _ _ _ _ Hsrv Hpost)|].
  split.
  { unfold exchanged. by destruct (is_None (py_get resp "access_token")). }
  rewrite Hparams. repeat split; lookups.
Qed.

(** X11. Without a pending nonce no callback gets through: on a strategy
    whose [auth_state] is [None], as after construction or [reset()],
    [handle_callback] raises for every URL and leaves the world as it
    was. *)
Theorem handle_callback_without_nonce (url : pyval) (w : world) :
  auth_state (self w) = PNone ->
  exists e, handle_callback url w = (Raise e, w).
Proof.
  intros Hnonce.
  assert (url = PNone \/ url <> PNone) as [-> | Hurl]
    by (destruct url; auto; right; discriminate).
  { by eexists. }
  destruct (callback_args url) as [args|e] eqn:Hargs.
  - rewrite (handle_callback_parsed _ _ _ Hurl Hargs), Hnonce.
    destruct (extract_oauth_error args); [by eexists|].
    destruct (args !! "state"); simpl; by eexists.
  - eexists. by apply handle_callback_unparsed.
Qed.

End CallbackCases.

Lemma handle_callback_oauth_error_witness :
  @handle_callback Sample.pylib
    (PStr "https://app.example/cb?error=access_denied&state=0f8fad5b&code=abc")
    Sample.pending =
  (Raise (Exception (OAuthError
     "The resource owner or authorization server denied the request.")),
   Sample.pending).
Proof.
  apply (@handle_callback_oauth_error Sample.pylib _
           (dict [("error", "access_denied"); ("state", "0f8fad5b"); ("code", "abc")])).
  - discriminate.
  - vm_compute. reflexivity.
  - vm_compute. reflexivity.
Defined.

Lemma handle_callback_missing_code_witness :
  @handle_callback Sample.pylib (PStr "https://app.example/cb?state=0f8fad5b")
    Sample.pending =
  (Raise (Exception (NoCode (dom (dict [("state", "0f8fad5b")])))), Sample.pending).
Proof.
  apply (@handle_callback_missing_code Sample.pylib _
           (dict [("state", "0f8fad5b")]) "0f8fad5b").
  - discriminate.
  - vm_compute. reflexivity.
  - vm_compute. reflexivity.
  - vm_compute. reflexivity.
  - vm_compute. reflexivity.
  - vm_compute. reflexivity.
Defined.

Lemma handle_callback_invalid_url_witness :
  @handle_callback Sample.pylib (PInt 5) Sample.pending =
  (Raise (Exception (InvalidCallbackURL AttributeError)), Sample.pending).
Proof.
  apply (@handle_callback_invalid_url Sample.pylib (PInt 5) AttributeError).
  vm_compute. reflexivity.
Defined.

Lemma handle_callback_exchanges_witness :
  let url := PStr "https://app.example/cb?code=abc&state=0f8fad5b" in
  let w := Sample.pending in
  let resp : gmap string pyval := PStr <$> Sample.token_doc in
  let params := exchange_params_of "abc" (self w) in
  @handle_callback Sample.pylib url w =
    ((if is_None (py_get resp "access_token")
      then Raise (Exception NoAccessToken)
      else Return (launch_context resp)),
     exchanged params resp w) /\
  trace (env (exchanged params resp w)) =
    (trace (env w) ++ [PostAsForm (_token_uri (self w)) params])%list /\
  params !! "scope" = None /\
  params !! "code" = Some (PStr "abc") /\
  params !! "state" = Some (PStr "0f8fad5b") /\
  params !! "grant_type" = Some (PStr "authorization_code").
Proof.
  apply (@handle_callback_exchanges Sample.pylib _
           (dict [("code", "abc"); ("state", "0f8fad5b")]) "0f8fad5b" "abc"
           Sample.pending (Sample.answering (PStr <$> Sample.token_doc))).
  - discriminate.
  - vm_compute. reflexivity.
  - vm_compute. reflexivity.
  - vm_compute. reflexivity.
  - vm_compute. reflexivity.
  - vm_compute. reflexivity.
  - vm_compute. reflexivity.
  - reflexivity.
Defined.

Lemma handle_callback_without_nonce_witness :
  exists e,
    @handle_callback Sample.pylib (PStr "https://app.example/cb?code=abc&state=0f8fad5b")
      Sample.fresh = (Raise e, Sample.fresh).
Proof. apply (@handle_callback_without_nonce Sample.pylib). vm_compute. reflexivity. Defined.

(** ** What the flow methods leave alone *)

Section Frames.
Context {pylib : PyLib}.

(** X12. [handle_callback] never changes the base part of the object, the
    scope, the endpoints, the pending nonce or the UUID count, whatever its
    outcome, and it adds to the trace at most one call, a [post_as_form] to
    the token endpoint.  In particular a callback that succeeded leaves its
    nonce pending. *)
Theorem handle_callback_frame (url : pyval) (w : world) :
  let w' := (handle_callback url w).2 in
  super (self w') = super (self w) /\
  config (self w') = config (self w) /\
  auth_state (self w') = auth_state (self w) /\
  drawn (env w') = drawn (env w) /\
  (trace (env w') = trace (env w) \/
   exists params,
     trace (env w') = (trace (env w) ++ [PostAsForm (_token_uri (self w)) params])%list).
Proof.
  simpl.
  assert (preserves beside_tokens (handle_callback url)) as Hframe.
  { unfold handle_callback, _code_exchange_params.
    pose proof request_access_token_beside_tokens. preserves_steps. }
  specialize (Hframe w).
  split; [exact (f_equal (fun x => x.1.1.1) Hframe)|].
  split; [exact (f_equal (fun x => x.1.1.2) Hframe)|].
  split; [exact (f_equal (fun x => x.1.2) Hframe)|].
  split; [exact (f_equal (fun x => x.2) Hframe)|].
  clear Hframe.
  assert (url = PNone \/ url <> PNone) as [-> | Hurl]
    by (destruct url; auto; right; discriminate).
  { by left. }
  destruct (callback_args url) as [args|e] eqn:Hargs.
  - rewrite (handle_callback_parsed _ _ _ Hurl Hargs).
    destruct (extract_oauth_error args); [by left|]. simpl.
    match goal with |- context [if ?c then _ else _] => destruct c end; [by left|].
    destruct (args !! "code") as [code|]; [|by left].
    destruct (request_access_token_trace (exchange_params_of code (self w)) w) as [H | H];
      [by left | right; eauto].
  - rewrite (handle_callback_unparsed _ _ _ Hurl Hargs). by left.
Qed.

End Frames.

(** ** The error text of a callback *)





(** X14. Without an [error_description], an [error] code is reported by
    its own text when it is one of the seven known codes and as
    ["Authorization error: <code>."] otherwise; the seven codes and their
    seven texts are pairwise different. *)
Theorem extract_oauth_error_code (args : gmap string string) (code : string) :
  args !! "error_description" = None ->
  args !! "error" = Some code ->
  extract_oauth_error args =
    Some (default ("Authorization error: " +:+ code +:+ ".") (error_text code)) /\
  NoDup error_texts.*1 /\
  NoDup error_texts.*2.
Proof.
  intros Hd He.
  split; [|split; apply (bool_decide_unpack _); vm_compute; exact I].
  unfold extract_oauth_error. rewrite Hd, He.
  destruct (String.eqb_spec "invalid_request" code) as [<- | H1]; [reflexivity|].
  destruct (String.eqb_spec "unauthorized_client" code) as [<- | H2]; [reflexivity|].
  destruct (String.eqb_spec "access_denied" code) as [<- | H3]; [reflexivity|].
  destruct (String.eqb_spec "unsupported_response_type" code) as [<- | H4]; [reflexivity|].
  destruct (String.eqb_spec "invalid_scope" code) as [<- | H5]; [reflexivity|].
  destruct (String.eqb_spec "server_error" code) as [<- | H6]; [reflexivity|].
  destruct (String.eqb_spec "temporarily_unavailable" code) as [<- | H7]; [reflexivity|].
  assert (error_text code = None) as ->; [|reflexivity].
  unfold error_text. apply not_elem_of_list_to_map_1.
  unfold error_texts. simpl. rewrite !elem_of_cons, elem_of_nil. intuition congruence.
Qed.

Lemma extract_oauth_error_code_witness :
  extract_oauth_error {[ "error" := "access_denied" ]} =
    Some (default ("Authorization error: " +:+ "access_denied" +:+ ".")
                  (error_text "access_denied")) /\
  NoDup error_texts.*1 /\
  NoDup error_texts.*2.
Proof. apply extract_oauth_error_code; reflexivity. Defined.

(** A known code and an unknown one. *)
Example extract_oauth_error_samples :
  extract_oauth_error {[ "error" := "access_denied" ]} =
    Some "The resource owner or authorization server denied the request." /\
  extract_oauth_error {[ "error" := "slow_down" ]} =
    Some "Authorization error: slow_down.".
Proof. split; reflexivity. Qed.

(** ** Reauthorization *)

Lemma reauthorize_run (w : world) :
  reauthorize w =
  if is_None (refresh_token (self w)) then (Return None, w)
  else match _request_access_token (reauth_params_of (self w)) w with
       | (Return ctx, w') => (Return (Some ctx), w')
       | (Raise e, w') => (Raise e, w')
       end.
Proof.
  unfold reauthorize, _reauthorize_params. run.
  destruct (is_None (refresh_token (self w))) eqn:Hr; [done|]. simpl. rewrite Hr.
  unfold reauth_params_of.
  by destruct (_request_access_token _ w) as [[ctx|e] w'].
Qed.

(** X15. Without a refresh token [reauthorize] returns [None] and does
    nothing: the server is not called and no field changes. *)
Theorem reauthorize_without_refresh_token (w : world) :
  refresh_token (self w) = PNone ->
  reauthorize w = (Return None, w).
Proof. intros Hr. by rewrite reauthorize_run, Hr. Qed.

Lemma reauthorize_without_refresh_token_witness :
  reauthorize Sample.pending = (Return None, Sample.pending).
Proof. apply reauthorize_without_refresh_token. vm_compute. reflexivity. Defined.

(** X16. With a refresh token [reauthorize] sends one form POST to the
    token endpoint, carrying the client id, the grant type [refresh_token]
    and the refresh token held, and neither scope nor redirect URI; its
    outcome and the world afterwards are those of the exchange on the
    server's answer. *)
Theorem reauthorize_exchanges
    (w : world) (srv : FHIRServer) (resp : gmap string pyval) :
  refresh_token (self w) <> PNone ->
  server (self w) = Some srv ->
  post_as_form srv (trace (env w)) (_token_uri (self w)) (reauth_params_of (self w)) =
    Return resp ->
  let params := reauth_params_of (self w) in
  reauthorize w =
    ((if is_None (py_get resp "access_token")
      then Raise (Exception NoAccessToken)
      else Return (Some (launch_context resp))),
     exchanged params resp w) /\
  params !! "grant_type" = Some (PStr "refresh_token") /\
  params !! "refresh_token" = Some (refresh_token (self w)) /\
  params !! "scope" = None /\
  params !! "redirect_uri" = None.
Proof.
  intros Hr Hsrv Hpost. simpl.
  rewrite reauthorize_run, (is_None_false _ Hr),
    (request_access_token_run _ _ _ _ Hsrv Hpost).
  split; [by destruct (is_None (py_get resp "access_token"))|].
  unfold reauth_params_of. repeat split; lookups.
Qed.

Lemma reauthorize_exchanges_witness :
  let w := Sample.restored_with Sample.token_only in
  let params := reauth_params_of (self w) in
  reauthorize w =
    ((if is_None (py_get Sample.token_only "access_token")
      then Raise (Exception NoAccessToken)
      else Return (Some (launch_context Sample.token_only))),
     exchanged params Sample.token_only w) /\
  params !! "grant_type" = Some (PStr "refresh_token") /\
  params !! "refresh_token" = Some (refresh_token (self w)) /\
  params !! "scope" = None /\
  params !! "redirect_uri" = None.
Proof.
  apply (reauthorize_exchanges (Sample.restored_with Sample.token_only)
           (Sample.answering Sample.token_only) Sample.token_only).
  - vm_compute. discriminate.
  - vm_compute. reflexivity.
  - reflexivity.
Defined.

(** X17. A refresh answered with a new access token and no refresh token
    can be done once only: the next [reauthorize] returns [None] without
    calling the server. *)
Theorem reauthorize_once
    (w : world) (srv : FHIRServer) (resp : gmap string pyval) :
  refresh_token (self w) <> PNone ->
  server (self w) = Some srv ->
  post_as_form srv (trace (env w)) (_token_uri (self w)) (reauth_params_of (self w)) =
    Return resp ->
  py_get resp "access_token" <> PNone ->
  resp !! "refresh_token" = None ->
  let w' := (reauthorize w).2 in
  (reauthorize w).1 = Return (Some (launch_context resp)) /\
  reauthorize w' = (Return None, w').
Proof.
  intros Hr Hsrv Hpost Htok Hnone. simpl.
  rewrite reauthorize_run, (is_None_false _ Hr),
    (request_access_token_run _ _ _ _ Hsrv Hpost), (is_None_false _ Htok).
  split; [done|]. simpl.
  rewrite reauthorize_run. unfold exchanged. rewrite (is_None_false _ Htok). simpl.
  unfold py_get at 1. by rewrite Hnone.
Qed.

Lemma reauthorize_once_witness :
  let w := Sample.restored_with Sample.token_only in
  let w' := (reauthorize w).2 in
  (reauthorize w).1 = Return (Some (launch_context Sample.token_only)) /\
  reauthorize w' = (Return None, w').
Proof.
  apply (reauthorize_once (Sample.restored_with Sample.token_only)
           (Sample.answering Sample.token_only) Sample.token_only).
  - vm_compute. discriminate.
  - vm_compute. reflexivity.
  - reflexivity.
  - vm_compute. discriminate.
  - reflexivity.
Defined.

(** X18. [reauthorize] never changes the base part of the object, the
    scope, the endpoints, the nonce or the UUID count, and adds to the trace
    at most one call, a [post_as_form] to the token endpoint. *)
Theorem reauthorize_frame (w : world) :
  let w' := (reauthorize w).2 in
  super (self w') = super (self w) /\
  config (self w') = config (self w) /\
  auth_state (self w') = auth_state (self w) /\
  drawn (env w') = drawn (env w) /\
  (trace (env w') = trace (env w) \/
   exists params,
     trace (env w') = (trace (env w) ++ [PostAsForm (_token_uri (self w)) params])%list).
Proof.
  simpl.
  assert (preserves beside_tokens reauthorize) as Hframe.
  { unfold reauthorize, _reauthorize_params.
    pose proof request_access_token_beside_tokens. preserves_steps. }
  specialize (Hframe w).
  split; [exact (f_equal (fun x => x.1.1.1) Hframe)|].
  split; [exact (f_equal (fun x => x.1.1.2) Hframe)|].
  split; [exact (f_equal (fun x => x.1.2) Hframe)|].
  split; [exact (f_equal (fun x => x.2) Hframe)|].
  clear Hframe. rewrite reauthorize_run.
  destruct (is_None (refresh_token (self w))); [by left|].
  pose proof (request_access_token_trace (reauth_params_of (self w)) w) as Ht.
  simpl in Ht.
  destruct (_request_access_token (reauth_params_of (self w)) w) as [[ctx|e] w'];
    simpl in *; destruct Ht; eauto.
Qed.

(** ** Signing headers *)

(** X19. [signed_headers] raises exactly when [access_token] is [None];
    otherwise it returns the given headers (none given: no headers) with
    [Authorization] set from the token and every other header as given.
    The strategy itself is never changed. *)
Theorem signed_headers_outcome
    (bearer : pyval -> pyval) (headers : option (gmap string pyval)) (o : t) :
  (signed_headers bearer headers o).2 = o /\
  match (signed_headers bearer headers o).1 with
  | Return h =>
      access_token o <> PNone /\
      h !! "Authorization" = Some (bearer (access_token o)) /\
      forall k, k <> "Authorization" -> h !! k = default ∅ headers !! k
  | Raise e => access_token o = PNone /\ e = Exception CannotSignHeaders
  end.
Proof.
  unfold signed_headers, can_sign_headers. run.
  destruct (access_token o) eqn:Htok; simpl; (split; [reflexivity|]);
    try done;
    (split; [done|]; split; [by rewrite lookup_insert_eq|];
     intros k Hk; rewrite lookup_insert_ne by done; by destruct headers).
Qed.

(** ** The exported state, continued *)

Lemma state_lookup (o : t) (k : string) :
  state o !! k =
  if String.eqb k "app_id" then Some (app_id o)
  else if String.eqb k "scope" then Some (scope o)
  else if String.eqb k "registration_uri" then Some (_registration_uri o)
  else if String.eqb k "authorize_uri" then Some (_authorize_uri o)
  else if String.eqb k "redirect_uri" then Some (_redirect_uri o)
  else if String.eqb k "token_uri" then Some (_token_uri o)
  else if String.eqb k "auth_state"
       then (if is_None (auth_state o) then None else Some (auth_state o))
  else if String.eqb k "access_token"
       then (if is_None (access_token o) then None else Some (access_token o))
  else if String.eqb k "refresh_token"
       then (if is_None (refresh_token o) then None else Some (refresh_token o))
  else None.
Proof.
  unfold state, FHIRAuth.state, app_id.
  repeat match goal with
         | |- context [String.eqb k ?s] =>
             destruct (String.eqb_spec k s) as [-> | ?];
             [destruct (is_None (auth_state o)), (is_None (access_token o)),
                (is_None (refresh_token o)); simpl; by lookups |]
         end.
  destruct (is_None (auth_state o)), (is_None (access_token o)),
    (is_None (refresh_token o)); simpl;
    rewrite ?lookup_insert_ne by congruence; by rewrite lookup_singleton_ne by congruence.
Qed.

(** X20. The nonce and the tokens are never exported as [None]: the
    exported state has the key [auth_state], [access_token] or
    [refresh_token] exactly when the field is not [None], and then with the
    value of the field. *)
Theorem state_never_exports_null_token (o : t) (k : string) :
  k ∈ token_keys ->
  state o !! k <> Some PNone /\
  exists v, field k o = Some v /\
            state o !! k = if is_None v then None else Some v.
Proof.
  unfold token_keys. rewrite !elem_of_cons, elem_of_nil.
  intros [-> | [-> | [-> | []]]]; rewrite state_lookup; simpl.
  - split; [by destruct (auth_state o) | by eexists].
  - split; [by destruct (access_token o) | by eexists].
  - split; [by destruct (refresh_token o) | by eexists].
Qed.

Lemma state_never_exports_null_token_witness :
  state (self Sample.pending) !! "access_token" <> Some PNone /\
  exists v, field "access_token" (self Sample.pending) = Some v /\
            state (self Sample.pending) !! "access_token" =
              if is_None v then None else Some v.
Proof.
  apply state_never_exports_null_token.
  unfold token_keys. rewrite !elem_of_cons. auto.
Defined.

(** X21. Apart from the nonce and the tokens, the exported state is the
    fields themselves: [app_id], [scope] and the four endpoints are always
    present, with [None] when the field is [None], and there is no other
    key. *)
Theorem state_exports_configuration (o : t) (k : string) :
  k ∉ token_keys ->
  state o !! k = field k o.
Proof.
  unfold token_keys. rewrite !elem_of_cons, elem_of_nil. intros Hk.
  rewrite state_lookup. unfold field, FHIRAuth.field, app_id.
  destruct (String.eqb_spec k "auth_state") as [-> | ?]; [tauto|].
  destruct (String.eqb_spec k "access_token") as [-> | ?]; [tauto|].
  destruct (String.eqb_spec k "refresh_token") as [-> | ?]; [tauto|].
  destruct (String.eqb_spec k "app_id") as [-> | ?]; [reflexivity|].
  repeat match goal with
         | |- context [String.eqb k ?s] =>
             destruct (String.eqb_spec k s) as [-> | ?]; [reflexivity|]
         end.
  reflexivity.
Qed.

Lemma state_exports_configuration_witness :
  state (self Sample.unconfigured) !! "authorize_uri" =
  field "authorize_uri" (self Sample.unconfigured).
Proof.
  apply state_exports_configuration.
  unfold token_keys. rewrite !elem_of_cons, elem_of_nil.
  intros [H | [H | [H | []]]]; discriminate.
Defined.

(** ** Importing state, continued *)

Lemma py_get_state (o : t) (k : string) (v : pyval) :
  field k o = Some v -> py_get (state o) k = v.
Proof.
  unfold py_get. rewrite state_lookup. unfold field, FHIRAuth.field, app_id.
  destruct (String.eqb_spec k "app_id") as [-> | ?]; [by intros [= <-]|].
  repeat match goal with
         | |- context [String.eqb k ?s] =>
             destruct (String.eqb_spec k s) as [-> | ?];
             [simpl; intros [= <-];
              try match goal with |- context [is_None ?x] => destruct x end;
              reflexivity |]
         end.
  intros [=].
Qed.

Lemma py_or_same (v : pyval) : py_or v v = v.
Proof. unfold py_or. by destruct (truthy v). Qed.

Lemma py_or_twice (x y : pyval) : py_or x (py_or x y) = py_or x y.
Proof. unfold py_or. by destruct (truthy x) eqn:E; rewrite ?E. Qed.

Lemma py_or_not_None (x y : pyval) : y <> PNone -> py_or x y <> PNone.
Proof. unfold py_or. destruct (truthy x) eqn:E; [|done]. by destruct x. Qed.

Lemma imported_field (st : gmap string pyval) (o : t) (k : string) (v : pyval) :
  field k o = Some v -> field k (imported st o) = Some (py_or (py_get st k) v).
Proof.
  unfold field, FHIRAuth.field, imported, app_id. simpl.
  repeat match goal with
         | |- context [String.eqb k ?s] =>
             destruct (String.eqb_spec k s) as [-> | ?]; [by intros [= <-] |]
         end.
  discriminate.
Qed.

(** X22. Importing a strategy's own exported state changes nothing, in any
    state the strategy may be in. *)
Theorem from_state_own_state (o : t) :
  from_state (state o) o = (Return tt, o).
Proof.
  rewrite from_state_run, state_truthy. f_equal.
  unfold imported.
  rewrite (py_get_state o "app_id" (app_id o)), (py_get_state o "scope" (scope o)),
    (py_get_state o "registration_uri" (_registration_uri o)),
    (py_get_state o "authorize_uri" (_authorize_uri o)),
    (py_get_state o "redirect_uri" (_redirect_uri o)),
    (py_get_state o "token_uri" (_token_uri o)),
    (py_get_state o "auth_state" (auth_state o)),
    (py_get_state o "access_token" (access_token o)),
    (py_get_state o "refresh_token" (refresh_token o)) by reflexivity.
  rewrite !py_or_same. destruct o as [[srv app] ? ? ? ? ? ? ? ?]. reflexivity.
Qed.

(** X23. A true value in the mapping replaces the field kept under its
    key, and the import then returns normally. *)
Theorem from_state_overrides
    (st : gmap string pyval) (o : t) (k : string) (v old : pyval) :
  st !! k = Some v ->
  truthy v = true ->
  field k o = Some old ->
  (from_state st o).1 = Return tt /\
  field k (from_state st o).2 = Some v.
Proof.
  intros Hk Hv Hold.
  rewrite from_state_run, (dict_truthy_lookup _ _ _ Hk). simpl.
  split; [done|].
  rewrite (imported_field _ _ _ _ Hold). unfold py_get. rewrite Hk. simpl.
  by rewrite py_or_truthy.
Qed.

Lemma from_state_overrides_witness :
  let st : gmap string pyval := {[ "scope" := PStr "user/*.read" ]} in
  (from_state st (self Sample.authorized)).1 = Return tt /\
  field "scope" (from_state st (self Sample.authorized)).2 = Some (PStr "user/*.read").
Proof.
  apply (from_state_overrides _ _ "scope" (PStr "user/*.read") (PStr "launch"));
    vm_compute; reflexivity.
Defined.

(** X24. Importing the same mapping a second time changes nothing more: the
    outcome and the object are those of the first import. *)
Theorem from_state_twice (st : gmap string pyval) (o : t) :
  from_state st (from_state st o).2 = from_state st o.
Proof.
  rewrite !from_state_run.
  destruct (dict_truthy st) eqn:Ht; simpl; [|done].
  f_equal. unfold imported. simpl. unfold app_id. simpl.
  by rewrite !py_or_twice.
Qed.

(** X25. An import never clears a field: a field that is not [None] before
    [from_state] is not [None] after it, whatever the mapping holds. *)
Theorem from_state_never_clears
    (st : gmap string pyval) (o : t) (k : string) (v : pyval) :
  field k o = Some v ->
  v <> PNone ->
  exists v', field k (from_state st o).2 = Some v' /\ v' <> PNone.
Proof.
  intros Hk Hv. rewrite from_state_run.
  destruct (dict_truthy st); simpl; [|by exists v].
  exists (py_or (py_get st k) v).
  split; [by apply imported_field | by apply py_or_not_None].
Qed.

Lemma from_state_never_clears_witness :
  let st : gmap string pyval := {[ "access_token" := PNone ]} in
  exists v', field "access_token" (from_state st (self Sample.authorized)).2 = Some v' /\
             v' <> PNone.
Proof.
  apply (from_state_never_clears _ _ "access_token" (PStr "t1")).
  - vm_compute. reflexivity.
  - discriminate.
Defined.

(** ** The lifecycle, continued *)

Section Lifecycle.
Context {pylib : PyLib}.

Lemma handle_callback_beside_tokens (url : pyval) :
  preserves beside_tokens (handle_callback url).
Proof.
  unfold handle_callback, _code_exchange_params.
  pose proof request_access_token_beside_tokens. preserves_steps.
Qed.

Lemma reauthorize_beside_tokens : preserves beside_tokens reauthorize.
Proof.
  unfold reauthorize, _reauthorize_params.
  pose proof request_access_token_beside_tokens. preserves_steps.
Qed.

Lemma authorize_uri_beside_nonce : preserves beside_nonce authorize_uri.
Proof.
  unfold authorize_uri, _authorize_params, should_save_state. preserves_steps.
Qed.

Lemma after_server (c : call) (w : world) :
  server (self (after c w)) = server (self w).
Proof.
  destruct c as [|st|bearer headers| |url|]; unfold after.
  - unfold on_self, zoom. by rewrite reset_run.
  - unfold on_self, zoom. rewrite from_state_run. by destruct (dict_truthy st).
  - unfold on_self, zoom, signed_headers. run.
    by destruct (negb (can_sign_headers (self w))).
  - exact (f_equal (fun x => FHIRAuth.server x.1.1.1) (authorize_uri_beside_nonce w)).
  - exact (f_equal (fun x => FHIRAuth.server x.1.1.1) (handle_callback_beside_tokens url w)).
  - exact (f_equal (fun x => FHIRAuth.server x.1.1.1) (reauthorize_beside_tokens w)).
Qed.

(** X26. A strategy always has its server: in every world reached from a
    construction that returned normally, through any calls with any
    outcomes, the [server] field is set. *)
Theorem reachable_has_server (w : world) :
  reachable w -> exists srv, server (self w) = Some srv.
Proof.
  induction 1 as [srv st o e Hnew | c w Hw IH].
  - rewrite new_run in Hnew. destruct srv as [srv|]; [|discriminate].
    exists srv. destruct st as [m|].
    + destruct (dict_truthy m); [|discriminate]. by injection Hnew as <-.
    + by injection Hnew as <-.
  - destruct IH as [srv Hsrv]. exists srv. by rewrite after_server.
Qed.

(** X27. Reading [authorize_uri] changes neither the base part of the
    object, nor scope and endpoints, nor the tokens, whatever its outcome.
    With a nonce pending it changes nothing at all; without one it draws
    exactly one UUID and keeps its first eight characters as the nonce.  The
    only call it can add to the trace is one [should_save_state]. *)
Theorem authorize_uri_frame (w : world) :
  let w' := (authorize_uri w).2 in
  super (self w') = super (self w) /\
  config (self w') = config (self w) /\
  access_token (self w') = access_token (self w) /\
  refresh_token (self w') = refresh_token (self w) /\
  (if is_None (auth_state (self w))
   then auth_state (self w') = PStr (substring 0 8 (uuid4 (drawn (env w)))) /\
        drawn (env w') = S (drawn (env w))
   else w' = w) /\
  (trace (env w') = trace (env w) \/
   trace (env w') = (trace (env w) ++ [SaveState])%list).
Proof.
  simpl. pose proof (authorize_uri_beside_nonce w) as Hframe.
  split; [exact (f_equal (fun x => x.1.1.1) Hframe)|].
  split; [exact (f_equal (fun x => x.1.1.2) Hframe)|].
  split; [exact (f_equal (fun x => x.1.2) Hframe)|].
  split; [exact (f_equal (fun x => x.2) Hframe)|].
  clear Hframe.
  unfold authorize_uri, _authorize_params, should_save_state, draw_uuid4. run.
  destruct (is_None (auth_state (self w))) eqn:Hn; simpl.
  - unfold server. simpl.
    destruct (FHIRAuth.server (super (self w))); simpl; auto.
  - destruct w as [o e]. simpl. auto.
Qed.

(** X28. After [reset()] the next read of [authorize_uri] mints a new nonce
    from a new UUID and notifies the server again, whether or not a nonce
    was pending before the reset. *)
Theorem reset_then_authorize_uri (w : world) (srv : FHIRServer) :
  server (self w) = Some srv ->
  let w' := (authorize_uri (after Reset w)).2 in
  auth_state (self w') = PStr (substring 0 8 (uuid4 (drawn (env w)))) /\
  drawn (env w') = S (drawn (env w)) /\
  trace (env w') = (trace (env w) ++ [SaveState])%list /\
  access_token (self w') = PNone.
Proof.
  intros Hsrv. cbv zeta. unfold after, on_self, zoom. rewrite reset_run.
  rewrite (authorize_uri_run _ srv) by exact Hsrv.
  unfold pended. simpl. auto.
Qed.

End Lifecycle.

Lemma reachable_has_server_witness :
  exists srv, server (self Sample.authorized) = Some srv.
Proof.
  apply (@reachable_has_server Sample.pylib). exact sample_authorized_reachable.
Defined.

Lemma reset_then_authorize_uri_witness :
  let w := Sample.authorized in
  let w' := (@authorize_uri Sample.pylib (@after Sample.pylib Reset w)).2 in
  auth_state (self w') = PStr (substring 0 8 (@uuid4 Sample.pylib (drawn (env w)))) /\
  drawn (env w') = S (drawn (env w)) /\
  trace (env w') = (trace (env w) ++ [SaveState])%list /\
  access_token (self w') = PNone.
Proof.
  apply (@reset_then_authorize_uri Sample.pylib Sample.authorized
           (Sample.answering (PStr <$> Sample.token_doc))).
  vm_compute. reflexivity.
Defined.

(** The nonce of the second authorization differs from the first one on
    the stand-in library. *)
Example reset_then_authorize_uri_sample :
  auth_state (self Sample.authorized) = PStr "0f8fad5b" /\
  auth_state (self (@authorize_uri Sample.pylib
                      (@after Sample.pylib Reset Sample.authorized)).2) = PStr "7c9e6679".
Proof. vm_compute. split; reflexivity. Qed.

(** ** The parameters of the authorize URL *)

(** X29. Parameters already in the query of the configured authorize URL
    are not lost, and the computed ones win where both name the same key:
    with a query that is not empty, each key of the merged parameters has
    the computed value if there is one and the configured value
    otherwise. *)
Theorem merged_params_precedence `{PyLib}
    (parts : list pyval) (q : pyval) (n : nat)
    (args ps : gmap string pyval) (k : string) :
  index parts 3 = Return q ->
  py_len q = Return n ->
  (0 < n)%nat ->
  parse_qs q = Return args ->
  exists ps',
    merged_params parts ps = Return ps' /\
    ps' !! k = match ps !! k with
               | Some v => Some v
               | None => args !! k
               end.
Proof.
  intros Hq Hn Hpos Hargs. exists (ps ∪ args).
  unfold merged_params. run. rewrite Hq, Hn.
  destruct (Nat.ltb_spec 0 n) as [_ | ?]; [|lia].
  rewrite Hargs. split; [done|].
  rewrite lookup_union. by destruct (ps !! k), (args !! k).
Qed.

Lemma merged_params_precedence_witness :
  let parts := [PStr EmptyString; PStr EmptyString; PStr "https://ehr.example/auth";
                PStr "aud=x&state=old"; PStr EmptyString] in
  let args : gmap string pyval :=
    <["aud" := PList ["x"]]> (<["state" := PList ["old"]]> ∅) in
  exists ps',
    @merged_params Sample.pylib parts (auth_params_of (self Sample.pending)) = Return ps' /\
    ps' !! "state" = match auth_params_of (self Sample.pending) !! "state" with
                     | Some v => Some v
                     | None => args !! "state"
                     end.
Proof.
  apply (@merged_params_precedence Sample.pylib _ (PStr "aud=x&state=old") 15).
  - reflexivity.
  - reflexivity.
  - lia.
  - vm_compute. reflexivity.
Defined.
